(** * scripts/train.py: the hyperparameter search over a CNN training loop

    A shallow embedding of [train], [test], [objective] and [main] of
    [scripts/train.py].  Python floats are idealised as rationals ([Q]),
    Python integers are [Z].  The libraries the script drives (torch,
    torchvision, optuna, wandb, argparse) form an interface, [Libs]; the
    script itself is embedded in a state-and-exception monad over a world
    that holds what the script mutates and what it emits. *)

From Stdlib Require Import ZArith QArith Lqa Lia List Permutation.
From stdpp Require Import gmap strings list.

Local Open Scope Z_scope.

(* ===================================================================== *)
(** ** Python exceptions and the monad of the script *)
(* ===================================================================== *)

Inductive exn : Type :=
| TypeError (msg : string)
| ZeroDivisionError (msg : string)
| ValueError (msg : string)
| UnboundLocalError (name : string)
| RuntimeError (msg : string)
| SystemExit (code : Z).

Inductive outcome (A : Type) : Type :=
| Returned (a : A)
| Raised (e : exn).
Arguments Returned {A} a.
Arguments Raised {A} e.

Module PyMonad.

(** A computation reads and updates a world [W] and either returns or
    raises; the world reached at a raise is kept (what was printed or
    logged before the exception stays printed). *)
Definition M (W A : Type) : Type := W -> outcome A * W.

Definition ret {W A} (a : A) : M W A := fun w => (Returned a, w).

Definition raise {W A} (e : exn) : M W A := fun w => (Raised e, w).

Definition bind {W A B} (c : M W A) (k : A -> M W B) : M W B :=
  fun w =>
    match c w with
    | (Returned a, w') => k a w'
    | (Raised e, w') => (Raised e, w')
    end.

Definition get {W} : M W W := fun w => (Returned w, w).

Definition modify {W} (f : W -> W) : M W unit := fun w => (Returned tt, f w).

End PyMonad.
Import PyMonad.

Declare Scope py_scope.
Delimit Scope py_scope with py.
Notation "x <- c ;; k" := (bind c (fun x => k))
  (at level 100, c at next level, right associativity) : py_scope.
Notation "c ;;; k" := (bind c (fun _ => k))
  (at level 100, right associativity) : py_scope.
Local Open Scope py_scope.

(** Python's [for x in xs: body], for a body that may [break]: the body
    returns [true] to go on and [false] to leave the loop. *)
Fixpoint for_each {W A} (xs : list A) (body : A -> M W bool) : M W unit :=
  match xs with
  | [] => ret tt
  | x :: rest =>
      go_on <- body x ;;
      if go_on then for_each rest body else ret tt
  end.

(** [for x in xs: body] without [break], threading the variables the
    body assigns. *)
Fixpoint for_fold {W A S} (xs : list A) (body : A -> S -> M W S) (s : S)
  : M W S :=
  match xs with
  | [] => ret s
  | x :: rest => s' <- body x s ;; for_fold rest body s'
  end.

(** [range(n)]: empty when [n <= 0]. *)
Definition range (n : Z) : list Z := map Z.of_nat (seq 0 (Z.to_nat n)).

(* ===================================================================== *)
(** ** Python arithmetic used by the script *)
(* ===================================================================== *)

(** [a % b] on integers: the sign follows the divisor, as [Z.modulo]; a
    zero divisor raises. *)
Definition py_mod {W} (a b : Z) : M W Z :=
  if b =? 0 then raise (ZeroDivisionError "integer modulo by zero")
  else ret (a mod b).

(** [a / b] where [b] is an integer: true division; a zero divisor raises. *)
Definition py_truediv {W} (a : Q) (b : Z) : M W Q :=
  if b =? 0 then raise (ZeroDivisionError "division by zero")
  else ret (a / inject_Z b)%Q.

(** Enumerate from 0, as [enumerate]. *)
Fixpoint enumerate_from {A} (i : Z) (xs : list A) : list (Z * A) :=
  match xs with
  | [] => []
  | x :: rest => (i, x) :: enumerate_from (i + 1) rest
  end.

Definition enumerate {A} (xs : list A) : list (Z * A) := enumerate_from 0 xs.

Definition len {A} (xs : list A) : Z := Z.of_nat (length xs).

(* ===================================================================== *)
(** ** Data model *)
(* ===================================================================== *)

(** Scalars that travel in Python dicts here: keyword arguments, the
    wandb configuration block, wandb records and optuna parameters. *)
Inductive scalar : Type :=
| SInt (z : Z)
| SFloat (q : Q)
| SBool (b : bool)
| SStr (s : string).

(** The [argparse.Namespace] that [parser.parse_args()] builds from the
    eight [add_argument] calls of [objective]. *)
Record Namespace : Type := {
  batch_size : Z;
  test_batch_size : Z;
  gamma : Q;
  no_cuda : bool;
  dry_run : bool;
  seed : Z;
  log_interval : Z;
  save_model : bool
}.

(** The namespace of the declared defaults (an empty command line). *)
Definition default_args : Namespace :=
  {| batch_size := 64; test_batch_size := 1000; gamma := 7 # 10;
     no_cuda := false; dry_run := false; seed := 1; log_interval := 10;
     save_model := false |}.

(** What [parse_args] does with a command line: a namespace, or the help
    text and exit status 0, or [parser.error]: usage and message on
    stderr, exit status 2. *)
Inductive parse_result : Type :=
| Parsed (args : Namespace)
| HelpRequested
| UsageError (msg : string).

Inductive device : Type := cuda | cpu.

(** The calls by which the script acts on its model and on the outside
    (library calls with an effect, prints, wandb records), in order. *)
Inductive event : Type :=
| Stderr (msg : string)
| HelpText
| ManualSeed (s : Z)
| Suggested (name : string) (v : scalar)
| WandbInit (project : string) (config : gmap string scalar)
| NetCreated (d : device)
| Forward (epoch batch_idx : Z)
| Backward (epoch batch_idx : Z)
| OptimizerStep (epoch batch_idx : Z)
| PrintTrain (epoch seen total : Z) (percent loss : Q)
| WandbLog (record : gmap string scalar)
| EvalForward (examples : Z)
| PrintTest (loss : Q) (correct total : Z) (percent : Q)
| SchedulerStep
| SaveModel (path : string)
| PrintBestParams (params : gmap string scalar)
| ArtifactAddDir (path : string)
| WandbLogArtifact (name : string)
| WandbFinish.

(** The libraries behind the script.  [Net] is [plr_exercise.models.Net],
    which this file imports and does not define; it is taken as a
    parameter, like the tensor operations.  [forward] is the model in
    evaluation mode, one row of class scores per image; [nll] is the loss
    of one example, from its row and its label.  [fit] stands for the five
    lines [zero_grad], forward in training mode, [nll_loss], [backward]
    and [optimizer.step]: the weights after the step and [loss.item()].
    [draw_base_seed] is the generator after a [DataLoader] iterator has
    drawn its base seed from it, which every pass does first. *)
Class Libs : Type := {
  Image : Type;
  Params : Type;
  Rng : Type;
  Sampler : Type;
  (* argparse *)
  parse_args : list string -> parse_result;
  (* torch *)
  cuda_is_available : bool;
  manual_seed : Z -> Rng;
  draw_base_seed : Rng -> Rng;
  shuffle : Rng -> list (Image * Z) -> list (Image * Z) * Rng;
  Net : Rng -> Params * Rng;
  forward : Params -> list Image -> list (list Q);
  nll : list Q -> Z -> Q;
  fit : device -> Q -> Params -> Rng -> list Image -> list Z -> Params * Rng * Q;
  (* torchvision.datasets.MNIST, train=True and train=False *)
  mnist_train : list (Image * Z);
  mnist_test : list (Image * Z);
  (* optuna *)
  new_sampler : Sampler;
  sample_float : Sampler -> Q -> Q -> Q * Sampler;
  sample_int : Sampler -> Z -> Z -> Z * Sampler;
  (* what the libraries promise *)
  shuffle_perm : forall g xs, Permutation (shuffle g xs).1 xs;
  sample_float_range : forall s lo hi,
      (lo <= hi)%Q -> (lo <= (sample_float s lo hi).1 <= hi)%Q;
  sample_int_range : forall s lo hi,
      lo <= hi -> lo <= (sample_int s lo hi).1 <= hi
}.

Section Script.

Context `{L : Libs}.

Definition Example : Type := Image * Z.
Definition Batch : Type := list Example.

(** The model object and its optimizer: the weights (with Adam's moments)
    and the learning rate of the optimizer's parameter group. *)
Record net_state : Type := {
  weights : Params;
  lr_now : Q
}.

(** One finished trial of the study. *)
Record frozen_trial : Type := {
  trial_params : gmap string scalar;
  trial_value : Q
}.

Record world : Type := {
  w_argv : list string;                 (* sys.argv[1:] *)
  w_trace : list event;                 (* output so far *)
  w_rng : Rng;                          (* torch's global generator *)
  w_net : net_state;                    (* the trial's model and optimizer *)
  w_sampler : Sampler;                  (* the study's sampler *)
  w_params : gmap string scalar;        (* the running trial's parameters *)
  w_trials : list frozen_trial          (* the study's finished trials *)
}.

Definition emit (e : event) : M world unit :=
  modify (fun w => {| w_argv := w_argv w; w_trace := w_trace w ++ [e];
                      w_rng := w_rng w; w_net := w_net w;
                      w_sampler := w_sampler w; w_params := w_params w;
                      w_trials := w_trials w |}).

Definition set_rng (g : Rng) : M world unit :=
  modify (fun w => {| w_argv := w_argv w; w_trace := w_trace w;
                      w_rng := g; w_net := w_net w;
                      w_sampler := w_sampler w; w_params := w_params w;
                      w_trials := w_trials w |}).

Definition set_net (n : net_state) : M world unit :=
  modify (fun w => {| w_argv := w_argv w; w_trace := w_trace w;
                      w_rng := w_rng w; w_net := n;
                      w_sampler := w_sampler w; w_params := w_params w;
                      w_trials := w_trials w |}).

Definition set_sampler (s : Sampler) : M world unit :=
  modify (fun w => {| w_argv := w_argv w; w_trace := w_trace w;
                      w_rng := w_rng w; w_net := w_net w;
                      w_sampler := s; w_params := w_params w;
                      w_trials := w_trials w |}).

Definition set_params (p : gmap string scalar) : M world unit :=
  modify (fun w => {| w_argv := w_argv w; w_trace := w_trace w;
                      w_rng := w_rng w; w_net := w_net w;
                      w_sampler := w_sampler w; w_params := p;
                      w_trials := w_trials w |}).

Definition set_trials (t : list frozen_trial) : M world unit :=
  modify (fun w => {| w_argv := w_argv w; w_trace := w_trace w;
                      w_rng := w_rng w; w_net := w_net w;
                      w_sampler := w_sampler w; w_params := w_params w;
                      w_trials := t |}).

(* ===================================================================== *)
(** ** torch.utils.data.DataLoader *)
(* ===================================================================== *)

(** Consecutive groups of [n] elements, the last one possibly shorter
    ([drop_last] is left at its default, [False]). [cur] is the group
    being filled, newest first. *)
Fixpoint batched_go {A} (n : nat) (cur : list A) (xs : list A) : list (list A) :=
  match xs with
  | [] => match cur with [] => [] | _ => [rev cur] end
  | x :: rest =>
      if (length (x :: cur) =? n)%nat
      then rev (x :: cur) :: batched_go n [] rest
      else batched_go n (x :: cur) rest
  end.

Definition batched {A} (n : nat) (xs : list A) : list (list A) :=
  batched_go n [] xs.

Record DataLoader : Type := {
  dl_dataset : list Example;
  dl_batch_size : positive;
  dl_shuffle : bool;
  dl_num_workers : Z;
  dl_pin_memory : bool
}.

Definition kw_int (kwargs : gmap string scalar) (k : string) (default : Z)
  : M world Z :=
  match kwargs !! k with
  | None => ret default
  | Some (SInt z) => ret z
  | Some _ => raise (TypeError (k +:+ " should be an integer"))
  end.

Definition kw_bool (kwargs : gmap string scalar) (k : string) (default : bool)
  : M world bool :=
  match kwargs !! k with
  | None => ret default
  | Some (SBool b) => ret b
  | Some _ => raise (TypeError (k +:+ " should be a bool"))
  end.

(** [DataLoader(dataset, **kwargs)] for the keywords the script passes;
    [batch_size] defaults to 1, [shuffle] to [False], [num_workers] to 0,
    [pin_memory] to [False]; a batch size that is not positive is refused. *)
Definition new_DataLoader (dataset : list Example) (kwargs : gmap string scalar)
  : M world DataLoader :=
  bs <- kw_int kwargs "batch_size" 1 ;;
  sh <- kw_bool kwargs "shuffle" false ;;
  nw <- kw_int kwargs "num_workers" 0 ;;
  pm <- kw_bool kwargs "pin_memory" false ;;
  if bs <=? 0
  then raise (ValueError "batch_size should be a positive integer value")
  else ret {| dl_dataset := dataset; dl_batch_size := Z.to_pos bs;
              dl_shuffle := sh; dl_num_workers := nw; dl_pin_memory := pm |}.

(** [len(loader)]: the number of batches, rounded up. *)
Definition loader_len (dl : DataLoader) : Z :=
  (len (dl_dataset dl) + Z.pos (dl_batch_size dl) - 1) / Z.pos (dl_batch_size dl).

(** The order in which one pass serves the examples.  Every pass first
    draws its base seed from the global generator; then the order is a
    fresh permutation drawn from the generator when [shuffle] is set, and
    the dataset's own order otherwise. *)
Definition serving_order (dl : DataLoader) : M world (list Example) :=
  w <- get ;;
  let g := draw_base_seed (w_rng w) in
  if dl_shuffle dl then
    let '(xs, g') := shuffle g (dl_dataset dl) in
    set_rng g' ;;;
    ret xs
  else
    set_rng g ;;;
    ret (dl_dataset dl).

(** [iter(loader)], read to its end. *)
Definition batches_of (dl : DataLoader) : M world (list Batch) :=
  xs <- serving_order dl ;;
  ret (batched (Pos.to_nat (dl_batch_size dl)) xs).

(* ===================================================================== *)
(** ** train *)
(* ===================================================================== *)

(** The model and the optimizer are Python objects the functions receive
    by reference; their state is [w_net]. *)
Inductive model_ref : Type := the_model.
Inductive optimizer_ref : Type := the_optimizer.

(** The body of the loop of [train] for one [(batch_idx, (data, target))];
    [false] is the [break] of the dry run.  [model.train()] puts the model
    in training mode: the forward pass of [fit] is the one with dropout,
    which is why it draws from the generator. *)
Definition train_batch (args : Namespace) (dev : device)
    (train_loader : DataLoader) (epoch : Z) (item : Z * Batch)
  : M world bool :=
  let '(batch_idx, b) := item in
  let data := b.*1 in
  let target := b.*2 in
  w <- get ;;
  let '(p, g, loss) :=
    fit dev (lr_now (w_net w)) (weights (w_net w)) (w_rng w) data target in
  emit (Forward epoch batch_idx) ;;;
  emit (Backward epoch batch_idx) ;;;
  set_rng g ;;;
  set_net {| weights := p; lr_now := lr_now (w_net w) |} ;;;
  emit (OptimizerStep epoch batch_idx) ;;;
  r <- py_mod batch_idx (log_interval args) ;;
  if r =? 0 then
    percent <- py_truediv (100 * inject_Z batch_idx) (loader_len train_loader) ;;
    emit (PrintTrain epoch (batch_idx * len data)
            (len (dl_dataset train_loader)) percent loss) ;;;
    if dry_run args then ret false
    else
      emit (WandbLog {[ "training loss" := SFloat loss ]}) ;;;
      ret true
  else ret true.

Definition train (args : Namespace) (model : model_ref) (dev : device)
    (train_loader : DataLoader) (optimizer : optimizer_ref) (epoch : Z)
  : M world unit :=
  bs <- batches_of train_loader ;;
  for_each (enumerate bs) (train_batch args dev train_loader epoch).

(* ===================================================================== *)
(** ** test *)
(* ===================================================================== *)

Fixpoint Qsum (qs : list Q) : Q :=
  match qs with
  | [] => 0
  | q :: rest => q + Qsum rest
  end.

(** [F.nll_loss(output, target, reduction="sum").item()] *)
Definition nll_loss_sum (output : list (list Q)) (target : list Z) : Q :=
  Qsum (zip_with nll output target).

(** The index of the first maximum of a row, as [argmax]. *)
Fixpoint argmax_from (best_i : Z) (best : Q) (i : Z) (row : list Q) : Z :=
  match row with
  | [] => best_i
  | x :: rest =>
      if Qle_bool x best then argmax_from best_i best (i + 1) rest
      else argmax_from i x (i + 1) rest
  end.

Definition argmax (row : list Q) : Z :=
  match row with
  | [] => 0
  | x :: rest => argmax_from 0 x 1 rest
  end.

(** [pred.eq(target.view_as(pred)).sum().item()] *)
Definition count_correct (pred target : list Z) : Z :=
  len (filter (fun pt => pt.1 = pt.2) (zip pred target)).

(** The body of the loop of [test]: the two accumulators after a batch.
    After [model.eval()] and under [torch.no_grad()] the forward pass is
    the deterministic [forward], and nothing writes the weights. *)
Definition test_batch (b : Batch) (acc : Q * Z) : M world (Q * Z) :=
  let '(test_loss, correct) := acc in
  let data := b.*1 in
  let target := b.*2 in
  w <- get ;;
  let output := forward (weights (w_net w)) data in
  emit (EvalForward (len data)) ;;;
  let pred := map argmax output in
  ret ((test_loss + nll_loss_sum output target)%Q,
       correct + count_correct pred target).

Definition test (model : model_ref) (dev : device) (test_loader : DataLoader)
  : M world Q :=
  bs <- batches_of test_loader ;;
  acc <- for_fold bs test_batch (0%Q, 0) ;;
  let '(test_loss, correct) := acc in
  test_loss <- py_truediv test_loss (len (dl_dataset test_loader)) ;;
  test_acc <- py_truediv (100 * inject_Z correct) (len (dl_dataset test_loader)) ;;
  emit (WandbLog {[ "test acc" := SFloat test_acc;
                    "test loss" := SFloat test_loss ]}) ;;;
  percent <- py_truediv (100 * inject_Z correct) (len (dl_dataset test_loader)) ;;
  emit (PrintTest test_loss correct (len (dl_dataset test_loader)) percent) ;;;
  ret test_loss.

(* ===================================================================== *)
(** ** Calling a Python function *)
(* ===================================================================== *)

Inductive pyval : Type :=
| VNamespace (a : Namespace)
| VModel (m : model_ref)
| VOptimizer (o : optimizer_ref)
| VDevice (d : device)
| VLoader (l : DataLoader)
| VInt (z : Z)
| VFloat (q : Q)
| VNone.

(** A [def] with positional parameters only, none of them with a default. *)
Record pydef : Type := {
  def_name : string;
  def_params : list string;
  def_body : list pyval -> M world pyval
}.

(** [f(a1, ..., an)]: the arguments are bound to the parameters in order;
    too many or too few raise [TypeError] before the body runs. *)
Definition py_call (f : pydef) (args : list pyval) : M world pyval :=
  if (length args =? length (def_params f))%nat then def_body f args
  else raise (TypeError (def_name f +:+ "(): wrong number of positional arguments")).

Definition bad_operand {A} (f : string) : M world A :=
  raise (TypeError (f +:+ "(): unsupported argument type")).

(** [def train(args, model, device, train_loader, optimizer, epoch)] *)
Definition train_def : pydef :=
  {| def_name := "train";
     def_params := ["args"; "model"; "device"; "train_loader"; "optimizer"; "epoch"];
     def_body := fun vs =>
       match vs with
       | [VNamespace a; VModel m; VDevice d; VLoader l; VOptimizer o; VInt e] =>
           train a m d l o e ;;; ret VNone
       | _ => bad_operand "train"
       end |}.

(** [def test(model, device, test_loader)] *)
Definition test_def : pydef :=
  {| def_name := "test";
     def_params := ["model"; "device"; "test_loader"];
     def_body := fun vs =>
       match vs with
       | [VModel m; VDevice d; VLoader l] =>
           test_loss <- test m d l ;; ret (VFloat test_loss)
       | _ => bad_operand "test"
       end |}.

(* ===================================================================== *)
(** ** objective *)
(* ===================================================================== *)

(** [parser.parse_args()] on [sys.argv]. *)
Definition run_parse_args : M world Namespace :=
  w <- get ;;
  match parse_args (w_argv w) with
  | Parsed args => ret args
  | HelpRequested => emit HelpText ;;; raise (SystemExit 0)
  | UsageError msg => emit (Stderr msg) ;;; raise (SystemExit 2)
  end.

(** The seeds [torch.manual_seed] takes: the signed and the unsigned
    64-bit integers. *)
Definition seed_in_range (s : Z) : bool :=
  (- 2 ^ 63 <=? s) && (s <=? 2 ^ 64 - 1).

(** [torch.manual_seed(s)]: a seed outside the 64-bit range, which
    [type=int] lets through, raises. *)
Definition torch_manual_seed (s : Z) : M world unit :=
  if seed_in_range s
  then set_rng (manual_seed s) ;;; emit (ManualSeed s)
  else raise (RuntimeError "Overflow when unpacking long").

(** The trial object optuna hands to the objective. *)
Inductive trial_ref : Type := a_trial (number : Z).

Definition suggest_float (trial : trial_ref) (name : string) (low high : Q)
  : M world Q :=
  w <- get ;;
  let '(v, s) := sample_float (w_sampler w) low high in
  set_sampler s ;;;
  set_params (<[ name := SFloat v ]> (w_params w)) ;;;
  emit (Suggested name (SFloat v)) ;;;
  ret v.

Definition suggest_int (trial : trial_ref) (name : string) (low high : Z)
  : M world Z :=
  w <- get ;;
  let '(v, s) := sample_int (w_sampler w) low high in
  set_sampler s ;;;
  set_params (<[ name := SInt v ]> (w_params w)) ;;;
  emit (Suggested name (SInt v)) ;;;
  ret v.

(** [d.update(e)]: the entries of [e] win. *)
Definition dict_update (d e : gmap string scalar) : gmap string scalar := e ∪ d.

(** [Net().to(device)] *)
Definition new_Net (dev : device) : M world model_ref :=
  w <- get ;;
  let '(p, g) := Net (w_rng w) in
  set_rng g ;;;
  set_net {| weights := p; lr_now := lr_now (w_net w) |} ;;;
  emit (NetCreated dev) ;;;
  ret the_model.

(** [optim.Adam(model.parameters(), lr=lr)] *)
Definition new_Adam (model : model_ref) (lr : Q) : M world optimizer_ref :=
  w <- get ;;
  set_net {| weights := weights (w_net w); lr_now := lr |} ;;;
  ret the_optimizer.

(** [scheduler.step()] of [StepLR(optimizer, step_size=1, gamma)]: the
    learning rate is multiplied by [gamma] at every step. *)
Definition scheduler_step (gamma : Q) : M world unit :=
  w <- get ;;
  set_net {| weights := weights (w_net w);
             lr_now := (lr_now (w_net w) * gamma)%Q |} ;;;
  emit SchedulerStep.

(** Lines 183 to 194 of [objective]: the keyword dicts, the two datasets
    and the two loaders. *)
Definition make_loaders (args : Namespace) (use_cuda : bool)
  : M world (DataLoader * DataLoader) :=
  let train_kwargs : gmap string scalar :=
    {[ "batch_size" := SInt (batch_size args) ]} in
  let test_kwargs : gmap string scalar :=
    {[ "batch_size" := SInt (test_batch_size args) ]} in
  let cuda_kwargs : gmap string scalar :=
    {[ "num_workers" := SInt 1; "pin_memory" := SBool true;
       "shuffle" := SBool true ]} in
  let train_kwargs := if use_cuda then dict_update train_kwargs cuda_kwargs
                      else train_kwargs in
  let test_kwargs := if use_cuda then dict_update test_kwargs cuda_kwargs
                     else test_kwargs in
  let dataset1 := mnist_train in
  let dataset2 := mnist_test in
  train_loader <- new_DataLoader dataset1 train_kwargs ;;
  test_loader <- new_DataLoader dataset2 test_kwargs ;;
  ret (train_loader, test_loader).

(** One turn of [for epoch in range(epochs)]; the loop carries the
    variable [test_loss], unbound ([None]) before the first turn. *)
Definition epoch_body (args : Namespace) (model : model_ref) (dev : device)
    (train_loader test_loader : DataLoader) (optimizer : optimizer_ref)
    (epoch : Z) (test_loss : option pyval) : M world (option pyval) :=
  py_call train_def [VNamespace args; VModel model; VDevice dev;
                     VLoader train_loader; VOptimizer optimizer; VInt epoch] ;;;
  test_loss <- py_call test_def [VModel model; VDevice dev;
                                 VLoader test_loader; VInt epoch] ;;
  scheduler_step (gamma args) ;;;
  ret (Some test_loss).

Definition objective (trial : trial_ref) : M world pyval :=
  args <- run_parse_args ;;
  let use_cuda := negb (no_cuda args) && cuda_is_available in
  torch_manual_seed (seed args) ;;;
  let dev := if use_cuda then cuda else cpu in
  lr <- suggest_float trial "lr" (1 # 100000) (1 # 1000) ;;
  epochs <- suggest_int trial "epochs" 1 10 ;;
  emit (WandbInit "plr-task_3"
          {[ "learning_rate" := SFloat lr; "architecture" := SStr "CNN";
             "dataset" := SStr "MNIST"; "epochs" := SInt epochs ]}) ;;;
  loaders <- make_loaders args use_cuda ;;
  let '(train_loader, test_loader) := loaders in
  model <- new_Net dev ;;
  optimizer <- new_Adam model lr ;;
  test_loss <- for_fold (range epochs)
                 (epoch_body args model dev train_loader test_loader optimizer)
                 None ;;
  (if save_model args then emit (SaveModel "mnist_cnn.pt") else ret tt) ;;;
  match test_loss with
  | Some v => ret v
  | None => raise (UnboundLocalError "test_loss")
  end.

(* ===================================================================== *)
(** ** main *)
(* ===================================================================== *)

(** [optuna.create_study()]: a study with a fresh sampler and no trials. *)
Definition create_study : M world unit :=
  set_sampler new_sampler ;;; set_trials [].

(** [study.tell]: a trial whose objective returned the number [value]
    is finished and kept with its parameters. *)
Definition record_trial (value : Q) : M world unit :=
  w <- get ;;
  set_trials (w_trials w ++
                [ {| trial_params := w_params w; trial_value := value |} ]).

(** [study.optimize(func, n_trials=n)]: the trials run one after the
    other; an exception of the objective is not caught ([catch=()]) and
    ends the loop; a returned float, or an integer, which is cast to one,
    finishes the trial; any other returned value fails the trial, which
    is not kept, and the loop goes on. *)
Definition optimize (func : trial_ref -> M world pyval) (n_trials : Z)
  : M world unit :=
  for_fold (range n_trials)
    (fun number _ =>
       set_params ∅ ;;;
       v <- func (a_trial number) ;;
       match v with
       | VFloat value => record_trial value
       | VInt value => record_trial (inject_Z value)
       | _ => ret tt
       end)
    tt.

(** The first trial of least value. *)
Fixpoint best_of (best : frozen_trial) (ts : list frozen_trial) : frozen_trial :=
  match ts with
  | [] => best
  | t :: rest =>
      if Qle_bool (trial_value best) (trial_value t) then best_of best rest
      else best_of t rest
  end.

(** [study.best_params] *)
Definition best_params : M world (gmap string scalar) :=
  w <- get ;;
  match w_trials w with
  | [] => raise (ValueError "No trials are completed yet.")
  | t :: rest => ret (trial_params (best_of t rest))
  end.

Definition main : M world unit :=
  create_study ;;;
  optimize objective 5 ;;;
  p <- best_params ;;
  emit (PrintBestParams p) ;;;
  emit (ArtifactAddDir "C:/Users/nicgr/Documents/GitHub/plr-exercise/scripts/") ;;;
  emit (WandbLogArtifact "code") ;;;
  emit WandbFinish.

End Script.


(* ===================================================================== *)
(** ** Definitions the statements use *)
(* ===================================================================== *)

Section Statements.

Context `{L : Libs}.

(** The world after some more events. *)
Definition add_events (es : list event) (w : world) : world :=
  {| w_argv := w_argv w; w_trace := w_trace w ++ es;
     w_rng := w_rng w; w_net := w_net w;
     w_sampler := w_sampler w; w_params := w_params w;
     w_trials := w_trials w |}.

(** The summed loss of a pass over the batches [bs] with weights [p],
    batch after batch, as the documentation of the Evaluator has it. *)
Definition accumulated_loss (p : Params) (bs : list Batch) : Q :=
  fold_left Qplus (map (fun b => nll_loss_sum (forward p b.*1) b.*2) bs) 0%Q.

(** The count of examples whose predicted class is their label. *)
Definition correct_count (p : Params) (bs : list Batch) : Z :=
  fold_left Z.add
    (map (fun b => count_correct (map argmax (forward p b.*1)) b.*2) bs) 0.

Definition is_optimizer_step (e : event) : bool :=
  match e with OptimizerStep _ _ => true | _ => false end.

Definition is_forward (e : event) : bool :=
  match e with Forward _ _ => true | _ => false end.

Definition is_backward (e : event) : bool :=
  match e with Backward _ _ => true | _ => false end.

Definition is_wandb_log (e : event) : bool :=
  match e with WandbLog _ => true | _ => false end.

(** Events of the Evaluator and of the Scheduler. *)
Definition is_eval_or_scheduler (e : event) : bool :=
  match e with
  | EvalForward _ | PrintTest _ _ _ _ | SchedulerStep => true
  | _ => false
  end.

Definition count_events (f : event -> bool) (es : list event) : nat :=
  length (List.filter f es).

(** The world with another state of the generator. *)
Definition with_rng (g : Rng) (w : world) : world :=
  {| w_argv := w_argv w; w_trace := w_trace w;
     w_rng := g; w_net := w_net w;
     w_sampler := w_sampler w; w_params := w_params w;
     w_trials := w_trials w |}.

(** The two accumulators of [test] after one more batch. *)
Definition eval_step (p : Params) (acc : Q * Z) (b : Batch) : Q * Z :=
  ((acc.1 + nll_loss_sum (forward p b.*1) b.*2)%Q,
   acc.2 + count_correct (map argmax (forward p b.*1)) b.*2).

(** The result of [fit] on a batch in a world. *)
Definition fit_of (dev : device) (b : Batch) (w : world) : Params * Rng * Q :=
  fit dev (lr_now (w_net w)) (weights (w_net w)) (w_rng w) b.*1 b.*2.

(** The world after the gradient step on batch [b]: the first five lines
    of the loop body of [train]. *)
Definition after_step (dev : device) (epoch idx : Z) (b : Batch) (w : world)
  : world :=
  {| w_argv := w_argv w;
     w_trace := w_trace w ++ [Forward epoch idx; Backward epoch idx;
                              OptimizerStep epoch idx];
     w_rng := (fit_of dev b w).1.2;
     w_net := {| weights := (fit_of dev b w).1.1;
                 lr_now := lr_now (w_net w) |};
     w_sampler := w_sampler w; w_params := w_params w;
     w_trials := w_trials w |}.

(** The progress record of batch [idx]. *)
Definition progress (dev : device) (dl : DataLoader) (epoch idx : Z)
    (b : Batch) (w : world) : event :=
  PrintTrain epoch (idx * len b.*1) (len (dl_dataset dl))
    (100 * inject_Z idx / inject_Z (loader_len dl))%Q (fit_of dev b w).2.

(** The trace only grows. *)
Definition extends (w w' : world) : Prop :=
  exists es, w_trace w' = w_trace w ++ es.

Definition is_best_report (e : event) : bool :=
  match e with PrintBestParams _ => true | _ => false end.

(** From [w] to [w'] no trial was recorded, the Evaluator and the
    Scheduler did nothing, and no best parameters were printed. *)
Definition quiet (w w' : world) : Prop :=
  w_trials w' = w_trials w /\
  List.filter is_eval_or_scheduler (w_trace w') =
    List.filter is_eval_or_scheduler (w_trace w) /\
  List.filter is_best_report (w_trace w') =
    List.filter is_best_report (w_trace w).

(** [c] takes every world to an [R]-related one, whether it returns or
    raises, and what it returns satisfies [Q]. *)
Definition hoare (R : world -> world -> Prop) {A} (c : M world A)
    (Q : A -> Prop) : Prop :=
  forall w, R w (c w).2 /\ forall a, (c w).1 = Returned a -> Q a.

(** A statement that records no trial and emits nothing of the Evaluator,
    of the Scheduler or of the final report. *)
Definition silent {A} (c : M world A) : Prop := hoare quiet c (fun _ => True).

(** A statement that, besides, never returns. *)
Definition aborts {A} (c : M world A) : Prop := hoare quiet c (fun _ => False).

(** The world in which the first trial of a new study starts. *)
Definition first_trial_world (w : world) : world :=
  {| w_argv := w_argv w; w_trace := w_trace w; w_rng := w_rng w;
     w_net := w_net w; w_sampler := new_sampler; w_params := ∅;
     w_trials := [] |}.

(** Whether the batch at [item] is one that logs: its index is a multiple
    of the log interval. *)
Definition logs_at (interval : Z) (item : Z * Batch) : bool :=
  item.1 mod interval =? 0.





(** The world after a batch of a full pass of [train]: the step, and for
    a logging batch the progress record and the wandb record. *)
Definition after_batch (args : Namespace) (dev : device) (dl : DataLoader)
    (epoch : Z) (w : world) (item : Z * Batch) : world :=
  add_events
    (if logs_at (log_interval args) item
     then [progress dev dl epoch item.1 item.2 w;
           WandbLog {[ "training loss" := SFloat (fit_of dev item.2 w).2 ]}]
     else [])
    (after_step dev epoch item.1 item.2 w).

(** What the first statements of [objective] sample, from the sampler
    they find. *)
Definition sampled_lr (w : world) : Q :=
  (sample_float (w_sampler w) (1 # 100000) (1 # 1000)).1.

Definition sampled_epochs (w : world) : Z :=
  (sample_int (sample_float (w_sampler w) (1 # 100000) (1 # 1000)).2 1 10).1.

(** The configuration block of the wandb run of a trial. *)
Definition wandb_config (lr : Q) (epochs : Z) : gmap string scalar :=
  {[ "learning_rate" := SFloat lr; "architecture" := SStr "CNN";
     "dataset" := SStr "MNIST"; "epochs" := SInt epochs ]}.

(** The events of [objective] up to [wandb.init]. *)
Definition prologue_events (args : Namespace) (w : world) : list event :=
  [ManualSeed (seed args);
   Suggested "lr" (SFloat (sampled_lr w));
   Suggested "epochs" (SInt (sampled_epochs w));
   WandbInit "plr-task_3" (wandb_config (sampled_lr w) (sampled_epochs w))].

(** The world in which [objective] reaches line 183: seeded, with the two
    parameters sampled and recorded, and the wandb run open. *)
Definition prologue_world (args : Namespace) (w : world) : world :=
  {| w_argv := w_argv w;
     w_trace := w_trace w ++ prologue_events args w;
     w_rng := manual_seed (seed args);
     w_net := w_net w;
     w_sampler :=
       (sample_int (sample_float (w_sampler w) (1 # 100000) (1 # 1000)).2
          1 10).2;
     w_params := <[ "epochs" := SInt (sampled_epochs w) ]>
                   (<[ "lr" := SFloat (sampled_lr w) ]> (w_params w));
     w_trials := w_trials w |}.

(** Lines 183 to 208 of [objective]: what a trial does from there. *)
Definition trial_body (args : Namespace) (lr : Q) (epochs : Z)
  : M world pyval :=
  (loaders <- make_loaders args (negb (no_cuda args) && cuda_is_available) ;;
   let '(train_loader, test_loader) := loaders in
   model <- new_Net (if negb (no_cuda args) && cuda_is_available
                     then cuda else cpu) ;;
   optimizer <- new_Adam model lr ;;
   test_loss <- for_fold (range epochs)
                  (epoch_body args model
                     (if negb (no_cuda args) && cuda_is_available
                      then cuda else cpu)
                     train_loader test_loader optimizer)
                  None ;;
   (if save_model args then emit (SaveModel "mnist_cnn.pt") else ret tt) ;;;
   match test_loss with
   | Some v => ret v
   | None => raise (UnboundLocalError "test_loss")
   end)%py.

(** From [w] to [w'] the trial's parameters stay and the trace grows. *)
Definition grows (w w' : world) : Prop :=
  w_params w' = w_params w /\ extends w w'.

(** What a statement may change besides the trace: the generator unless
    [keep_rng], the weights unless [keep_weights]; never the learning
    rate, the sampler, the trial parameters, the finished trials or the
    command line. *)
Definition frame (keep_rng keep_weights : bool) (w w' : world) : Prop :=
  w_argv w' = w_argv w /\ w_sampler w' = w_sampler w /\
  w_params w' = w_params w /\ w_trials w' = w_trials w /\
  lr_now (w_net w') = lr_now (w_net w) /\
  extends w w' /\
  (keep_rng = true -> w_rng w' = w_rng w) /\
  (keep_weights = true -> weights (w_net w') = weights (w_net w)).

Definition is_print_train (e : event) : bool :=
  match e with PrintTrain _ _ _ _ _ => true | _ => false end.


(** Two worlds agree on what a trial reads: the command line and the
    sampler, and, as the flags say, the generator, the weights and the
    learning rate.  The trace, the trial's parameters and the finished
    trials are never read. *)
Definition agree (rng wts lr : bool) (w1 w2 : world) : Prop :=
  w_argv w1 = w_argv w2 /\ w_sampler w1 = w_sampler w2 /\
  (rng = true -> w_rng w1 = w_rng w2) /\
  (wts = true -> weights (w_net w1) = weights (w_net w2)) /\
  (lr = true -> lr_now (w_net w1) = lr_now (w_net w2)).

(** [c1] from [w1] and [c2] from [w2] end alike: the same outcome, the
    same new events, and worlds related by [Q] when they return. *)
Definition same_at {A} (Q : world -> world -> Prop) (c1 c2 : M world A)
    (w1 w2 : world) : Prop :=
  (c1 w1).1 = (c2 w2).1 /\
  (exists es, w_trace (c1 w1).2 = w_trace w1 ++ es /\
              w_trace (c2 w2).2 = w_trace w2 ++ es) /\
  (forall a, (c1 w1).1 = Returned a -> Q (c1 w1).2 (c2 w2).2).

Definition same_run {A} (P Q : world -> world -> Prop) (c1 c2 : M world A)
  : Prop :=
  forall w1 w2, P w1 w2 -> same_at Q c1 c2 w1 w2.

(** Two worlds hold the same model: the same weights and, when [rng] is
    set, the same state of the generator. *)
Definition same_model (rng : bool) (w1 w2 : world) : Prop :=
  weights (w_net w1) = weights (w_net w2) /\
  (rng = true -> w_rng w1 = w_rng w2).

End Statements.

(* ===================================================================== *)
(** ** A small world to run the script in *)
(* ===================================================================== *)

Module Toy.

(** Images are numbers, the model has two classes and one weight, the
    generator and the sampler are counters. *)
Definition toy_parse (argv : list string) : parse_result :=
  match argv with
  | [] => Parsed default_args
  | ["--dry-run"] =>
      Parsed {| batch_size := 64; test_batch_size := 1000; gamma := 7 # 10;
                no_cuda := false; dry_run := true; seed := 1;
                log_interval := 10; save_model := false |}
  | ["--no-cuda"] =>
      Parsed {| batch_size := 64; test_batch_size := 1000; gamma := 7 # 10;
                no_cuda := true; dry_run := false; seed := 1;
                log_interval := 10; save_model := false |}
  | ["--batch-size"; "2"] =>
      Parsed {| batch_size := 2; test_batch_size := 1000; gamma := 7 # 10;
                no_cuda := false; dry_run := false; seed := 1;
                log_interval := 10; save_model := false |}
  | ["--log-interval"; "0"] =>
      Parsed {| batch_size := 64; test_batch_size := 1000; gamma := 7 # 10;
                no_cuda := false; dry_run := false; seed := 1;
                log_interval := 0; save_model := false |}
  | ["--batch-size"; "0"] =>
      Parsed {| batch_size := 0; test_batch_size := 1000; gamma := 7 # 10;
                no_cuda := false; dry_run := false; seed := 1;
                log_interval := 10; save_model := false |}
  | ["--help"] => HelpRequested
  | _ => UsageError "unrecognized arguments"
  end.

Definition toy_row (x : Z) : list Q :=
  if Z.even x then [- (1 # 4); - (3 # 2)]%Q else [- (2 # 1); - (1 # 8)]%Q.

Definition toy_nll (row : list Q) (t : Z) : Q :=
  (- nth (Z.to_nat t) row 0)%Q.

#[export] Instance libs : Libs :=
  {| Image := Z; Params := Z; Rng := Z; Sampler := Z;
     parse_args := toy_parse;
     cuda_is_available := false;
     manual_seed := fun s => s;
     draw_base_seed := fun g => g + 1;
     shuffle := fun g xs => (rev xs, g + 1);
     Net := fun g => (g, g + 1);
     forward := fun _ data => map toy_row data;
     nll := toy_nll;
     fit := fun _ lr p g _ _ => (p + 1, g + 1, 1 # 2);
     mnist_train := [(0, 0); (1, 1); (2, 0)];
     mnist_test := [(4, 0); (5, 0); (7, 1)];
     new_sampler := 0;
     sample_float := fun s lo hi => (lo, s + 1);
     sample_int := fun s lo hi => (lo, s + 1);
     shuffle_perm := fun _ xs => Permutation_sym (Permutation_rev xs);
     sample_float_range := fun _ lo _ H => conj (Qle_refl lo) H;
     sample_int_range := fun _ lo _ H => conj (Z.le_refl lo) H |}.

(** Loaders over the toy datasets, two examples to a batch. *)
Definition train_loader : DataLoader :=
  {| dl_dataset := mnist_train; dl_batch_size := 2; dl_shuffle := false;
     dl_num_workers := 0; dl_pin_memory := false |}.

Definition test_loader : DataLoader :=
  {| dl_dataset := mnist_test; dl_batch_size := 2; dl_shuffle := false;
     dl_num_workers := 0; dl_pin_memory := false |}.

Definition empty_loader : DataLoader :=
  {| dl_dataset := []; dl_batch_size := 2; dl_shuffle := false;
     dl_num_workers := 0; dl_pin_memory := false |}.

Definition zero_args : Namespace :=
  {| batch_size := 64; test_batch_size := 1000; gamma := 7 # 10;
     no_cuda := false; dry_run := false; seed := 1; log_interval := 0;
     save_model := false |}.

Definition dry_args : Namespace :=
  {| batch_size := 64; test_batch_size := 1000; gamma := 7 # 10;
     no_cuda := false; dry_run := true; seed := 1; log_interval := 10;
     save_model := false |}.

(** A world in the middle of a study: three finished trials, the last
    two of equal value, and what a trial left behind. *)
Definition studied_world : world :=
  {| w_argv := []; w_trace := [WandbInit "plr-task_3" ∅]; w_rng := 5;
     w_net := {| weights := 0; lr_now := 1 # 1000 |};
     w_sampler := 0; w_params := {[ "lr" := SFloat (1 # 1000) ]};
     w_trials :=
       [ {| trial_params := {[ "epochs" := SInt 1 ]}; trial_value := 3 # 1 |};
         {| trial_params := {[ "epochs" := SInt 2 ]}; trial_value := 1 # 1 |};
         {| trial_params := {[ "epochs" := SInt 3 ]}; trial_value := 2 # 2 |} ] |}.

Definition world0 (argv : list string) : world :=
  {| w_argv := argv; w_trace := []; w_rng := 0;
     w_net := {| weights := 0; lr_now := 0 |};
     w_sampler := 0; w_params := ∅; w_trials := [] |}.

(** [world0] found with the generator in another state. *)
Definition reseeded_world : world :=
  {| w_argv := []; w_trace := []; w_rng := 7;
     w_net := {| weights := 0; lr_now := 0 |};
     w_sampler := 0; w_params := ∅; w_trials := [] |}.

(** [world0] after one pass of a loader that does not shuffle: the
    generator has given the base seed of the pass. *)
Definition served (argv : list string) : world :=
  {| w_argv := argv; w_trace := []; w_rng := 1;
     w_net := {| weights := 0; lr_now := 0 |};
     w_sampler := 0; w_params := ∅; w_trials := [] |}.

End Toy.

(* ===================================================================== *)
(** ** The monad and the loops *)
(* ===================================================================== *)

Section MonadFacts.

Context {W : Type}.

Lemma bind_returned {A B} (c : M W A) (k : A -> M W B) (w w' : W) (a : A) :
  c w = (Returned a, w') -> bind c k w = k a w'.
Proof. intros H. unfold bind. now rewrite H. Qed.

Lemma bind_unfold {A B} (c : M W A) (k : A -> M W B) (w : W) :
  bind c k w =
  match c w with
  | (Returned a, w') => k a w'
  | (Raised e, w') => (Raised e, w')
  end.
Proof. reflexivity. Qed.

Lemma bind_raised {A B} (c : M W A) (k : A -> M W B) (w w' : W) (e : exn) :
  c w = (Raised e, w') -> bind c k w = (Raised e, w').
Proof. intros H. unfold bind. now rewrite H. Qed.

Lemma py_mod_total (a b : Z) (w : W) :
  b <> 0 -> py_mod a b w = (Returned (a mod b), w).
Proof.
  intros Hb. unfold py_mod.
  destruct (Z.eqb_spec b 0) as [E | _]; [contradiction | reflexivity].
Qed.

Lemma py_mod_zero (a : Z) (w : W) :
  py_mod a 0 w = (Raised (ZeroDivisionError "integer modulo by zero"), w).
Proof. reflexivity. Qed.

Lemma py_truediv_total (a : Q) (b : Z) (w : W) :
  b <> 0 -> py_truediv a b w = (Returned (a / inject_Z b)%Q, w).
Proof.
  intros Hb. unfold py_truediv.
  destruct (Z.eqb_spec b 0) as [E | _]; [contradiction | reflexivity].
Qed.

Lemma py_truediv_zero (a : Q) (w : W) :
  py_truediv a 0 w = (Raised (ZeroDivisionError "division by zero"), w).
Proof. reflexivity. Qed.

End MonadFacts.

(* ===================================================================== *)
(** ** Batching *)
(* ===================================================================== *)

Section Batching.

Context {A : Type}.

Lemma concat_batched_go (n : nat) (xs cur : list A) :
  concat (batched_go n cur xs) = rev cur ++ xs.
Proof.
  revert cur. induction xs as [| x xs IH]; intros cur.
  - destruct cur as [| c cur]; simpl; [reflexivity |].
    now rewrite !app_nil_r.
  - cbn [batched_go]. destruct (length (x :: cur) =? n)%nat.
    + cbn [concat]. rewrite IH. simpl. now rewrite <- app_assoc.
    + rewrite IH. simpl. now rewrite <- app_assoc.
Qed.

Lemma concat_batched (n : nat) (xs : list A) : concat (batched n xs) = xs.
Proof. unfold batched. now rewrite concat_batched_go. Qed.

Lemma batched_nil_inv (n : nat) (xs : list A) : batched n xs = [] -> xs = [].
Proof.
  intros H. rewrite <- (concat_batched n xs). now rewrite H.
Qed.

End Batching.

(* ===================================================================== *)
(** ** Worlds, loaders and the loop of the Evaluator *)
(* ===================================================================== *)

Section WorldFacts.

Context `{L : Libs}.

Lemma add_events_nil (w : world) : add_events [] w = w.
Proof. destruct w. unfold add_events. simpl. now rewrite app_nil_r. Qed.

Lemma add_events_app (es1 es2 : list event) (w : world) :
  add_events es2 (add_events es1 w) = add_events (es1 ++ es2) w.
Proof. unfold add_events. simpl. now rewrite app_assoc. Qed.

Lemma with_rng_same (w : world) : with_rng (w_rng w) w = w.
Proof. now destruct w. Qed.

Lemma emit_eq (e : event) (w : world) :
  emit e w = (Returned tt, add_events [e] w).
Proof. reflexivity. Qed.

Lemma serving_order_inv (dl : DataLoader) (w w1 : world) (xs : list Example) :
  serving_order dl w = (Returned xs, w1) ->
  Permutation xs (dl_dataset dl) /\ w1 = with_rng (w_rng w1) w /\
  (dl_shuffle dl = false ->
   xs = dl_dataset dl /\ w1 = with_rng (draw_base_seed (w_rng w)) w).
Proof.
  unfold serving_order. unfold bind at 1. cbn [get].
  destruct (dl_shuffle dl) eqn:Hs.
  - unfold bind, set_rng, modify, ret.
    pose proof (shuffle_perm (draw_base_seed (w_rng w)) (dl_dataset dl)) as Hp.
    destruct (shuffle (draw_base_seed (w_rng w)) (dl_dataset dl)) as [ys g].
    simpl in Hp.
    intros [= <- <-]. split; [exact Hp |]. split; [reflexivity | discriminate].
  - unfold bind, set_rng, modify, ret. intros [= <- <-].
    split; [reflexivity |]. split; [reflexivity | auto].
Qed.

Lemma serving_order_returns (dl : DataLoader) (w : world) :
  exists xs w1, serving_order dl w = (Returned xs, w1).
Proof.
  unfold serving_order. unfold bind at 1. cbn [get].
  destruct (dl_shuffle dl).
  - unfold bind, set_rng, modify, ret.
    destruct (shuffle (draw_base_seed (w_rng w)) (dl_dataset dl)) as [ys g].
    eauto.
  - unfold bind, set_rng, modify, ret. eauto.
Qed.

Lemma batches_of_returns (dl : DataLoader) (w : world) :
  exists bs w1, batches_of dl w = (Returned bs, w1).
Proof.
  destruct (serving_order_returns dl w) as (xs & w1 & H).
  unfold batches_of. rewrite (bind_returned _ _ _ _ _ H). unfold ret. eauto.
Qed.

Lemma batches_of_inv (dl : DataLoader) (w w1 : world) (bs : list Batch) :
  batches_of dl w = (Returned bs, w1) ->
  Permutation (concat bs) (dl_dataset dl) /\ w1 = with_rng (w_rng w1) w /\
  (bs <> [] -> dl_dataset dl <> []) /\
  (dl_shuffle dl = false ->
   bs = batched (Pos.to_nat (dl_batch_size dl)) (dl_dataset dl) /\
   w1 = with_rng (draw_base_seed (w_rng w)) w).
Proof.
  destruct (serving_order_returns dl w) as (xs & w' & H).
  unfold batches_of. rewrite (bind_returned _ _ _ _ _ H). unfold ret.
  intros [= <- <-]. apply serving_order_inv in H as (Hp & Hw & Hf).
  rewrite concat_batched. split; [exact Hp |]. split; [exact Hw |]. split.
  - intros Hne Hnil. rewrite Hnil in Hp. symmetry in Hp. apply Permutation_nil in Hp.
    subst xs. now apply Hne.
  - intros Hs. destruct (Hf Hs) as [-> ->]. split; reflexivity.
Qed.

Lemma loader_len_pos (dl : DataLoader) :
  dl_dataset dl <> [] -> 0 < loader_len dl.
Proof.
  intros Hne. unfold loader_len, len.
  assert (Hn : 1 <= Z.of_nat (length (dl_dataset dl))).
  { destruct (dl_dataset dl); [contradiction | simpl; lia]. }
  apply Z.lt_le_trans with 1; [lia |].
  apply Z.div_le_lower_bound; lia.
Qed.

Lemma len_pos_iff {A} (xs : list A) : 0 < len xs <-> xs <> [].
Proof.
  unfold len. destruct xs; simpl; split; intros H; try lia; try discriminate.
  now contradiction H.
Qed.

End WorldFacts.

Section EvaluatorFacts.

Context `{L : Libs}.

Lemma len_fmap_fst (b : Batch) : len b.*1 = len b.
Proof. unfold len. now rewrite length_fmap. Qed.

Lemma for_fold_test_batch (bs : list Batch) (acc : Q * Z) (w : world) :
  for_fold bs test_batch acc w =
  (Returned (fold_left (eval_step (weights (w_net w))) bs acc),
   add_events (map (fun b => EvalForward (len b)) bs) w).
Proof.
  revert acc w. induction bs as [| b bs IH]; intros [l c] w.
  - simpl. unfold ret. now rewrite add_events_nil.
  - cbn [for_fold]. unfold bind at 1.
    assert (Hb : test_batch b (l, c) w =
                 (Returned (eval_step (weights (w_net w)) (l, c) b),
                  add_events [EvalForward (len b)] w)).
    { unfold test_batch, bind, get, ret. rewrite emit_eq.
      now rewrite len_fmap_fst. }
    rewrite Hb, IH. simpl. now rewrite add_events_app.
Qed.

Lemma fold_eval_step (p : Params) (bs : list Batch) (l : Q) (c : Z) :
  fold_left (eval_step p) bs (l, c) =
  (fold_left Qplus (map (fun b => nll_loss_sum (forward p b.*1) b.*2) bs) l,
   fold_left Z.add
     (map (fun b => count_correct (map argmax (forward p b.*1)) b.*2) bs) c).
Proof.
  revert l c. induction bs as [| b bs IH]; intros l c; [reflexivity |].
  cbn [fold_left map]. rewrite <- IH. reflexivity.
Qed.

(** What one call of [test] does on a test set that is not empty. *)
Lemma test_run (model : model_ref) (dev : device) (dl : DataLoader)
    (w w1 : world) (bs : list Batch) :
  batches_of dl w = (Returned bs, w1) ->
  dl_dataset dl <> [] ->
  let p := weights (w_net w) in
  let n := len (dl_dataset dl) in
  let mean_loss := (accumulated_loss p bs / inject_Z n)%Q in
  let accuracy := (100 * inject_Z (correct_count p bs) / inject_Z n)%Q in
  test model dev dl w =
  (Returned mean_loss,
   add_events
     (map (fun b => EvalForward (len b)) bs ++
      [WandbLog {[ "test acc" := SFloat accuracy;
                   "test loss" := SFloat mean_loss ]};
       PrintTest mean_loss (correct_count p bs) n accuracy]) w1).
Proof.
  intros Hb Hne p n mean_loss accuracy.
  assert (Hn : n <> 0).
  { apply len_pos_iff in Hne. unfold n. lia. }
  assert (Hp : weights (w_net w1) = p).
  { apply batches_of_inv in Hb as (_ & Hw & _). rewrite Hw. reflexivity. }
  unfold test. rewrite (bind_returned _ _ _ _ _ Hb).
  rewrite (bind_returned _ _ _ _ _ (for_fold_test_batch bs (0%Q, 0) w1)).
  rewrite Hp, fold_eval_step. fold (accumulated_loss p bs) (correct_count p bs).
  fold n.
  rewrite (bind_returned _ _ _ _ _ (py_truediv_total _ n _ Hn)).
  rewrite (bind_returned _ _ _ _ _ (py_truediv_total _ n _ Hn)).
  fold mean_loss accuracy.
  rewrite (bind_returned _ _ _ _ _ (emit_eq _ _)).
  rewrite (bind_returned _ _ _ _ _ (py_truediv_total _ n _ Hn)).
  rewrite (bind_returned _ _ _ _ _ (emit_eq _ _)).
  unfold ret. rewrite !add_events_app. reflexivity.
Qed.

(** On an empty test set the first division of [test] raises. *)
Lemma test_empty (model : model_ref) (dev : device) (dl : DataLoader)
    (w : world) :
  dl_dataset dl = [] ->
  exists w', test model dev dl w =
             (Raised (ZeroDivisionError "division by zero"), w').
Proof.
  intros Hnil.
  destruct (batches_of_returns dl w) as (bs & w1 & Hb).
  unfold test. rewrite (bind_returned _ _ _ _ _ Hb).
  rewrite (bind_returned _ _ _ _ _ (for_fold_test_batch bs (0%Q, 0) w1)).
  rewrite fold_eval_step, Hnil. cbn [len length Z.of_nat].
  rewrite (bind_raised _ _ _ _ _ (py_truediv_zero _ _)). eauto.
Qed.

End EvaluatorFacts.

(* ===================================================================== *)
(** ** Bounds on the accumulators of the Evaluator *)
(* ===================================================================== *)

Section Bounds.

Context `{L : Libs}.

Lemma fold_left_Zadd (zs : list Z) (c : Z) :
  fold_left Z.add zs c = c + fold_left Z.add zs 0.
Proof.
  revert c. induction zs as [| z zs IH]; intros c; simpl; [lia |].
  rewrite (IH (c + z)), (IH (0 + z)). lia.
Qed.

Lemma count_correct_bounds (pred target : list Z) :
  0 <= count_correct pred target <= len target.
Proof.
  unfold count_correct, len. split; [lia |].
  apply inj_le. etransitivity; [apply length_filter |].
  rewrite length_zip_with. lia.
Qed.

Lemma correct_count_bounds (p : Params) (bs : list Batch) :
  0 <= correct_count p bs <= len (concat bs).
Proof.
  unfold correct_count. induction bs as [| b bs IH]; simpl.
  - unfold len. simpl. lia.
  - rewrite fold_left_Zadd.
    pose proof (count_correct_bounds (map argmax (forward p b.*1)) b.*2) as Hb.
    unfold len, Batch, Example in *. rewrite length_app.
    rewrite length_fmap in Hb. lia.
Qed.

Lemma Qsum_nonneg (qs : list Q) : Forall (fun q => 0 <= q)%Q qs -> (0 <= Qsum qs)%Q.
Proof.
  induction 1 as [| q qs Hq _ IH]; simpl; [apply Qle_refl |].
  lra.
Qed.

Lemma nll_loss_sum_nonneg (output : list (list Q)) (target : list Z) :
  Forall (fun row => forall t, 0 <= nll row t)%Q output ->
  (0 <= nll_loss_sum output target)%Q.
Proof.
  intros H. unfold nll_loss_sum. apply Qsum_nonneg.
  revert target. induction H as [| row output Hrow _ IH]; intros target.
  - constructor.
  - destruct target as [| t target]; simpl; constructor; auto.
Qed.

Lemma fold_left_Qplus_nonneg (qs : list Q) (a : Q) :
  (0 <= a)%Q -> Forall (fun q => 0 <= q)%Q qs -> (0 <= fold_left Qplus qs a)%Q.
Proof.
  intros Ha H. revert a Ha. induction H as [| q qs Hq _ IH]; intros a Ha; simpl.
  - exact Ha.
  - apply IH. lra.
Qed.

Lemma accumulated_loss_nonneg (p : Params) (bs : list Batch) :
  (forall data, Forall (fun row => forall t, 0 <= nll row t)%Q (forward p data)) ->
  (0 <= accumulated_loss p bs)%Q.
Proof.
  intros H. unfold accumulated_loss.
  apply fold_left_Qplus_nonneg; [apply Qle_refl |].
  induction bs as [| b bs IH]; simpl; constructor; [| exact IH].
  apply nll_loss_sum_nonneg, H.
Qed.

Lemma mean_nonneg (a : Q) (n : Z) : (0 <= a)%Q -> 0 < n -> (0 <= a / inject_Z n)%Q.
Proof.
  intros Ha Hn. apply Qle_shift_div_l.
  - change 0%Q with (inject_Z 0). now rewrite <- Zlt_Qlt.
  - lra.
Qed.

Lemma percent_bounds (c n : Z) :
  0 <= c <= n -> 0 < n ->
  (0 <= 100 * inject_Z c / inject_Z n <= 100)%Q.
Proof.
  intros [Hc0 Hcn] Hn.
  assert (Hn' : (0 < inject_Z n)%Q).
  { change 0%Q with (inject_Z 0). now rewrite <- Zlt_Qlt. }
  assert (Hc0' : (0 <= inject_Z c)%Q).
  { change 0%Q with (inject_Z 0). now rewrite <- Zle_Qle. }
  assert (Hcn' : (inject_Z c <= inject_Z n)%Q) by now rewrite <- Zle_Qle.
  split.
  - apply Qle_shift_div_l; [exact Hn' | lra].
  - apply Qle_shift_div_r; [exact Hn' | lra].
Qed.

End Bounds.

(* ===================================================================== *)
(** ** argmax *)
(* ===================================================================== *)

Section Argmax.

Lemma argmax_from_first_maximum (row pre : list Q) (best_i i : Z) (best : Q) :
  i = len pre -> 0 <= best_i < i ->
  pre !! Z.to_nat best_i = Some best ->
  (forall k x, pre !! k = Some x -> (x <= best)%Q) ->
  (forall k x, (k < Z.to_nat best_i)%nat -> pre !! k = Some x -> (x < best)%Q) ->
  exists m,
    (pre ++ row) !! Z.to_nat (argmax_from best_i best i row) = Some m /\
    0 <= argmax_from best_i best i row < len (pre ++ row) /\
    (forall k x, (pre ++ row) !! k = Some x -> (x <= m)%Q) /\
    (forall k x, (k < Z.to_nat (argmax_from best_i best i row))%nat ->
                 (pre ++ row) !! k = Some x -> (x < m)%Q).
Proof.
  revert pre best_i i best.
  induction row as [| x row IH]; intros pre best_i i best Hi Hb Hl Hmax Hfirst.
  - cbn [argmax_from]. rewrite app_nil_r. exists best.
    split; [exact Hl |]. split; [lia |]. split; [exact Hmax | exact Hfirst].
  - cbn [argmax_from].
    replace (pre ++ x :: row) with ((pre ++ [x]) ++ row)
      by now rewrite <- app_assoc.
    assert (Hi' : i + 1 = len (pre ++ [x])).
    { unfold len in *. rewrite length_app. simpl. lia. }
    destruct (Qle_bool x best) eqn:E.
    + apply Qle_bool_iff in E. apply IH; [exact Hi' | lia | | |].
      * apply lookup_app_l_Some. exact Hl.
      * intros k y Hk. apply lookup_app_Some in Hk as [Hk | [_ Hk]].
        -- eapply Hmax; eauto.
        -- apply list_lookup_singleton_Some in Hk as [_ <-]. exact E.
      * intros k y Hlt Hk. apply lookup_app_Some in Hk as [Hk | [Hge _]].
        -- eapply Hfirst; eauto.
        -- unfold len in *. lia.
    + assert (Hlt : (best < x)%Q).
      { apply Qnot_le_lt. intros Hle. apply Qle_bool_iff in Hle. congruence. }
      apply IH; [exact Hi' | lia | | |].
      * subst i. unfold len. rewrite Nat2Z.id.
        rewrite lookup_app_r by lia. now rewrite Nat.sub_diag.
      * intros k y Hk. apply lookup_app_Some in Hk as [Hk | [_ Hk]].
        -- apply Qlt_le_weak. eapply Qle_lt_trans; [eapply Hmax; eauto | exact Hlt].
        -- apply list_lookup_singleton_Some in Hk as [_ <-]. apply Qle_refl.
      * intros k y Hk1 Hk. apply lookup_app_Some in Hk as [Hk | [Hge _]].
        -- eapply Qle_lt_trans; [eapply Hmax; eauto | exact Hlt].
        -- subst i. unfold len in *. rewrite Nat2Z.id in Hk1. lia.
Qed.

(** The prediction for a row is the index of its maximum, the first one
    when the maximum occurs more than once. *)
Theorem argmax_first_maximum (row : list Q) :
  row <> [] ->
  exists m,
    row !! Z.to_nat (argmax row) = Some m /\
    0 <= argmax row < len row /\
    (forall k x, row !! k = Some x -> (x <= m)%Q) /\
    (forall k x, (k < Z.to_nat (argmax row))%nat -> row !! k = Some x -> (x < m)%Q).
Proof.
  destruct row as [| x row]; [contradiction |]. intros _.
  unfold argmax.
  apply (argmax_from_first_maximum row [x] 0 1 x); try reflexivity; try lia.
  intros k y Hk. apply list_lookup_singleton_Some in Hk as [_ <-]. apply Qle_refl.
Qed.

End Argmax.

(* ===================================================================== *)
(** ** The loop of the Trainer *)
(* ===================================================================== *)

Section TrainerFacts.

Context `{L : Libs}.

Lemma train_batch_step (args : Namespace) (dev : device) (dl : DataLoader)
    (epoch idx : Z) (b : Batch) (w : world) :
  train_batch args dev dl epoch (idx, b) w =
  bind (py_mod idx (log_interval args))
    (fun r =>
       if r =? 0 then
         bind (py_truediv (100 * inject_Z idx) (loader_len dl))
           (fun percent =>
              bind (emit (PrintTrain epoch (idx * len b.*1)
                            (len (dl_dataset dl)) percent (fit_of dev b w).2))
                (fun _ =>
                   if dry_run args then ret false
                   else bind (emit (WandbLog {[ "training loss" :=
                                                  SFloat (fit_of dev b w).2 ]}))
                          (fun _ => ret true)))
       else ret true)
    (after_step dev epoch idx b w).
Proof.
  unfold train_batch, after_step, fit_of.
  unfold bind at 1. unfold get at 1.
  destruct (fit dev (lr_now (w_net w)) (weights (w_net w)) (w_rng w) b.*1 b.*2)
    as [[p g] loss].
  do 5 (unfold bind at 1; cbn [emit set_rng set_net modify]).
  cbn [w_argv w_trace w_rng w_net w_sampler w_params w_trials fst snd].
  now rewrite <- !app_assoc.
Qed.

(** With a log interval of zero the modulo raises, after the step. *)
Lemma train_batch_log_interval_zero (args : Namespace) (dev : device)
    (dl : DataLoader) (epoch idx : Z) (b : Batch) (w : world) :
  log_interval args = 0 ->
  train_batch args dev dl epoch (idx, b) w =
  (Raised (ZeroDivisionError "integer modulo by zero"),
   after_step dev epoch idx b w).
Proof.
  intros H0. rewrite train_batch_step, H0.
  now rewrite (bind_raised _ _ _ _ _ (py_mod_zero _ _)).
Qed.

(** The first batch reaches the logging branch for every log interval
    that is not zero: [0 % n == 0]. *)
Lemma train_batch_first (args : Namespace) (dev : device) (dl : DataLoader)
    (epoch : Z) (b : Batch) (w : world) :
  log_interval args <> 0 -> loader_len dl <> 0 ->
  train_batch args dev dl epoch (0, b) w =
  if dry_run args then
    (Returned false,
     add_events [progress dev dl epoch 0 b w] (after_step dev epoch 0 b w))
  else
    (Returned true,
     add_events [progress dev dl epoch 0 b w;
                 WandbLog {[ "training loss" := SFloat (fit_of dev b w).2 ]}]
       (after_step dev epoch 0 b w)).
Proof.
  intros Hli Hlen. rewrite train_batch_step.
  rewrite (bind_returned _ _ _ _ _ (py_mod_total 0 _ _ Hli)).
  rewrite Z.mod_0_l by exact Hli. cbn [Z.eqb].
  rewrite (bind_returned _ _ _ _ _ (py_truediv_total _ _ _ Hlen)).
  rewrite (bind_returned _ _ _ _ _ (emit_eq _ _)).
  destruct (dry_run args).
  - reflexivity.
  - rewrite (bind_returned _ _ _ _ _ (emit_eq _ _)). unfold ret.
    now rewrite add_events_app.
Qed.

Lemma extends_refl (w : world) : extends w w.
Proof. exists []. now rewrite app_nil_r. Qed.

Lemma extends_trans (w1 w2 w3 : world) :
  extends w1 w2 -> extends w2 w3 -> extends w1 w3.
Proof.
  intros [es1 H1] [es2 H2]. exists (es1 ++ es2).
  now rewrite H2, H1, app_assoc.
Qed.

Lemma extends_add_events (es : list event) (w : world) :
  extends w (add_events es w).
Proof. now exists es. Qed.

Lemma extends_after_step (dev : device) (epoch idx : Z) (b : Batch) (w : world) :
  extends w (after_step dev epoch idx b w).
Proof. eexists. reflexivity. Qed.

(** With a log interval that is not zero no batch raises. *)
Lemma train_batch_returns (args : Namespace) (dev : device) (dl : DataLoader)
    (epoch : Z) (item : Z * Batch) (w : world) :
  log_interval args <> 0 -> loader_len dl <> 0 ->
  exists go_on w', train_batch args dev dl epoch item w = (Returned go_on, w')
                   /\ extends w w'.
Proof.
  intros Hli Hlen. destruct item as [idx b]. rewrite train_batch_step.
  rewrite (bind_returned _ _ _ _ _ (py_mod_total idx _ _ Hli)).
  pose proof (extends_after_step dev epoch idx b w) as Hs.
  destruct (idx mod log_interval args =? 0).
  - rewrite (bind_returned _ _ _ _ _ (py_truediv_total _ _ _ Hlen)).
    rewrite (bind_returned _ _ _ _ _ (emit_eq _ _)).
    destruct (dry_run args).
    + eexists _, _. split; [reflexivity |].
      eapply extends_trans; [exact Hs | apply extends_add_events].
    + rewrite (bind_returned _ _ _ _ _ (emit_eq _ _)).
      eexists _, _. split; [reflexivity |].
      eapply extends_trans; [exact Hs |].
      eapply extends_trans; apply extends_add_events.
  - eexists _, _. split; [reflexivity | exact Hs].
Qed.

Lemma for_each_train_batch_returns (args : Namespace) (dev : device)
    (dl : DataLoader) (epoch : Z) (items : list (Z * Batch)) (w : world) :
  log_interval args <> 0 -> loader_len dl <> 0 ->
  exists w', for_each items (train_batch args dev dl epoch) w = (Returned tt, w')
             /\ extends w w'.
Proof.
  intros Hli Hlen. revert w.
  induction items as [| item items IH]; intros w.
  - exists w. split; [reflexivity | apply extends_refl].
  - cbn [for_each].
    destruct (train_batch_returns args dev dl epoch item w Hli Hlen)
      as (go_on & w1 & H1 & E1).
    rewrite (bind_returned _ _ _ _ _ H1). destruct go_on.
    + destruct (IH w1) as (w2 & H2 & E2). exists w2.
      split; [exact H2 | eapply extends_trans; eauto].
    + exists w1. split; [reflexivity | exact E1].
Qed.

Lemma batches_nil_inv (dl : DataLoader) (w w1 : world) :
  batches_of dl w = (Returned [], w1) -> dl_dataset dl = [].
Proof.
  intros H. apply batches_of_inv in H as (Hp & _). simpl in Hp.
  now apply Permutation_nil in Hp.
Qed.


End TrainerFacts.

(* ===================================================================== *)
(** ** A program logic for the script *)
(* ===================================================================== *)

Section Hoare.

Context `{L : Libs}.

Variable R : world -> world -> Prop.
Hypothesis R_refl : forall w, R w w.
Hypothesis R_trans : forall w1 w2 w3, R w1 w2 -> R w2 w3 -> R w1 w3.

Lemma hoare_ret {A} (a : A) (Q : A -> Prop) : Q a -> hoare R (ret a) Q.
Proof. intros H w. split; [apply R_refl | now intros ? [= <-]]. Qed.

Lemma hoare_raise {A} (e : exn) (Q : A -> Prop) : hoare R (raise e) Q.
Proof. intros w. split; [apply R_refl | discriminate]. Qed.

Lemma hoare_get (Q : world -> Prop) : (forall w, Q w) -> hoare R get Q.
Proof. intros H w. split; [apply R_refl | intros; apply H]. Qed.

Lemma hoare_modify (f : world -> world) (Q : unit -> Prop) :
  (forall w, R w (f w)) -> Q tt -> hoare R (modify f) Q.
Proof. intros H Ht w. split; [apply H | now intros [] _]. Qed.

Lemma hoare_bind {A B} (c : M world A) (k : A -> M world B)
    (Q : A -> Prop) (Q' : B -> Prop) :
  hoare R c Q -> (forall a, Q a -> hoare R (k a) Q') -> hoare R (bind c k) Q'.
Proof.
  intros Hc Hk w. unfold bind. destruct (Hc w) as [Hr Hq].
  destruct (c w) as [[a | e] w1]; simpl in *.
  - destruct (Hk a (Hq a eq_refl) w1) as [Hr' Hq'].
    split; [eapply R_trans; eauto | exact Hq'].
  - split; [exact Hr | discriminate].
Qed.

Lemma hoare_weaken {A} (c : M world A) (Q Q' : A -> Prop) :
  hoare R c Q -> (forall a, Q a -> Q' a) -> hoare R c Q'.
Proof.
  intros Hc HQ w. destruct (Hc w) as [Hr Hq]. split; [exact Hr | auto].
Qed.

Lemma hoare_for_each {A} (xs : list A) (body : A -> M world bool) :
  (forall x, hoare R (body x) (fun _ => True)) ->
  hoare R (for_each xs body) (fun _ => True).
Proof.
  intros Hb. induction xs as [| x xs IH]; cbn [for_each].
  - now apply hoare_ret.
  - eapply hoare_bind; [apply Hb |]. intros [] _; [exact IH |].
    now apply hoare_ret.
Qed.

Lemma hoare_for_fold {A S} (xs : list A) (body : A -> S -> M world S)
    (I : S -> Prop) (s : S) :
  I s -> (forall x s, I s -> hoare R (body x s) I) ->
  hoare R (for_fold xs body s) I.
Proof.
  intros Hs Hb. revert s Hs. induction xs as [| x xs IH]; intros s Hs.
  - now apply hoare_ret.
  - cbn [for_fold]. eapply hoare_bind; [now apply Hb |].
    intros s' Hs'. now apply IH.
Qed.

Lemma hoare_py_mod (a b : Z) : hoare R (py_mod a b) (fun _ => True).
Proof.
  unfold py_mod. destruct (b =? 0); [apply hoare_raise | now apply hoare_ret].
Qed.

Lemma hoare_py_truediv (a : Q) (b : Z) : hoare R (py_truediv a b) (fun _ => True).
Proof.
  unfold py_truediv. destruct (b =? 0); [apply hoare_raise | now apply hoare_ret].
Qed.

End Hoare.

(* ===================================================================== *)
(** ** What the Trainer and the objective leave untouched *)
(* ===================================================================== *)

Section Quiet.

Context `{L : Libs}.

Lemma quiet_refl (w : world) : quiet w w.
Proof. now repeat split. Qed.

Lemma quiet_trans (w1 w2 w3 : world) : quiet w1 w2 -> quiet w2 w3 -> quiet w1 w3.
Proof.
  intros (A1 & B1 & C1) (A2 & B2 & C2). repeat split; congruence.
Qed.

Lemma silent_ret {A} (a : A) : silent (ret a).
Proof. now apply hoare_ret; [apply quiet_refl |]. Qed.

Lemma silent_raise {A} (e : exn) : silent (@raise world A e).
Proof. apply hoare_raise, quiet_refl. Qed.

Lemma aborts_raise {A} (e : exn) : aborts (@raise world A e).
Proof. apply hoare_raise, quiet_refl. Qed.

Lemma silent_bind {A B} (c : M world A) (k : A -> M world B) :
  silent c -> (forall a, silent (k a)) -> silent (bind c k).
Proof.
  intros Hc Hk. eapply hoare_bind with (Q := fun _ : A => True);
    try apply quiet_trans; [exact Hc | intros a _; apply Hk].
Qed.

Lemma aborts_bind_l {A B} (c : M world A) (k : A -> M world B) :
  aborts c -> aborts (bind c k).
Proof.
  intros Hc. eapply hoare_bind with (Q := fun _ : A => False);
    try apply quiet_trans; [exact Hc | intros a []].
Qed.

Lemma aborts_bind_r {A B} (c : M world A) (k : A -> M world B) :
  silent c -> (forall a, aborts (k a)) -> aborts (bind c k).
Proof.
  intros Hc Hk. eapply hoare_bind with (Q := fun _ : A => True);
    try apply quiet_trans; [exact Hc | intros a _; apply Hk].
Qed.

Lemma aborts_silent {A} (c : M world A) : aborts c -> silent c.
Proof. intros H. eapply hoare_weaken; [exact H | now intros]. Qed.

Lemma silent_get : silent (@get world).
Proof. now apply hoare_get; [apply quiet_refl |]. Qed.

Lemma silent_emit (e : event) :
  is_eval_or_scheduler e = false -> is_best_report e = false -> silent (emit e).
Proof.
  intros H1 H2. apply hoare_modify; [| exact I].
  intros w. unfold quiet. cbn [w_trials w_trace].
  rewrite !List.filter_app. cbn [List.filter]. rewrite H1, H2.
  now rewrite !app_nil_r.
Qed.

Lemma silent_set_rng (g : Rng) : silent (set_rng g).
Proof. apply hoare_modify; [intros w; now repeat split | exact I]. Qed.

Lemma silent_set_net (n : net_state) : silent (set_net n).
Proof. apply hoare_modify; [intros w; now repeat split | exact I]. Qed.

Lemma silent_set_sampler (s : Sampler) : silent (set_sampler s).
Proof. apply hoare_modify; [intros w; now repeat split | exact I]. Qed.

Lemma silent_set_params (p : gmap string scalar) : silent (set_params p).
Proof. apply hoare_modify; [intros w; now repeat split | exact I]. Qed.

Lemma silent_py_mod (a b : Z) : silent (@py_mod world a b).
Proof. apply hoare_py_mod, quiet_refl. Qed.

Lemma silent_py_truediv (a : Q) (b : Z) : silent (@py_truediv world a b).
Proof. apply hoare_py_truediv, quiet_refl. Qed.

Lemma silent_for_each {A} (xs : list A) (body : A -> M world bool) :
  (forall x, silent (body x)) -> silent (for_each xs body).
Proof.
  intros H. apply hoare_for_each; [apply quiet_refl | apply quiet_trans | exact H].
Qed.

End Quiet.

Create HintDb silent.

#[local] Hint Resolve silent_ret silent_raise silent_get silent_set_rng
  silent_set_net silent_set_sampler silent_set_params silent_py_mod
  silent_py_truediv aborts_raise : silent.

(** Splits a sequence of statements and closes the simple ones. *)
Ltac silent_steps :=
  repeat first
    [ apply silent_bind; [| intros ?]
    | apply silent_emit; reflexivity
    | solve [auto with silent]
    | match goal with
      | |- silent (if ?b then _ else _) => destruct b
      | |- silent (let '(_, _) := ?p in _) => destruct p
      | |- silent (match ?o with Some _ => _ | None => _ end) => destruct o
      | |- silent (match ?s with SInt _ => _ | _ => _ end) => destruct s
      end ].

Section QuietScript.

Context `{L : Libs}.

Lemma silent_batches_of (dl : DataLoader) : silent (batches_of dl).
Proof. unfold batches_of, serving_order. silent_steps. Qed.

Lemma silent_train_batch (args : Namespace) (dev : device) (dl : DataLoader)
    (epoch : Z) (item : Z * Batch) : silent (train_batch args dev dl epoch item).
Proof. unfold train_batch. destruct item as [idx b]. silent_steps. Qed.

Lemma silent_train (args : Namespace) (model : model_ref) (dev : device)
    (dl : DataLoader) (optimizer : optimizer_ref) (epoch : Z) :
  silent (train args model dev dl optimizer epoch).
Proof.
  unfold train. apply silent_bind; [apply silent_batches_of | intros bs].
  apply silent_for_each. intros item. apply silent_train_batch.
Qed.

Lemma silent_kw_int (kwargs : gmap string scalar) (k : string) (d : Z) :
  silent (kw_int kwargs k d).
Proof. unfold kw_int. destruct (kwargs !! k) as [[] |]; auto with silent. Qed.

Lemma silent_kw_bool (kwargs : gmap string scalar) (k : string) (d : bool) :
  silent (kw_bool kwargs k d).
Proof. unfold kw_bool. destruct (kwargs !! k) as [[] |]; auto with silent. Qed.

Lemma silent_new_DataLoader (dataset : list Example)
    (kwargs : gmap string scalar) : silent (new_DataLoader dataset kwargs).
Proof.
  unfold new_DataLoader.
  apply silent_bind; [apply silent_kw_int | intros bs].
  apply silent_bind; [apply silent_kw_bool | intros sh].
  apply silent_bind; [apply silent_kw_int | intros nw].
  apply silent_bind; [apply silent_kw_bool | intros pm].
  destruct (bs <=? 0); auto with silent.
Qed.

Lemma silent_make_loaders (args : Namespace) (use_cuda : bool) :
  silent (make_loaders args use_cuda).
Proof.
  unfold make_loaders.
  apply silent_bind; [apply silent_new_DataLoader | intros tl].
  apply silent_bind; [apply silent_new_DataLoader | intros sl].
  auto with silent.
Qed.

Lemma silent_run_parse_args : silent run_parse_args.
Proof.
  unfold run_parse_args. apply silent_bind; [apply silent_get | intros w].
  destruct (parse_args (w_argv w)); silent_steps.
Qed.

Lemma silent_suggest_float (trial : trial_ref) (name : string) (lo hi : Q) :
  silent (suggest_float trial name lo hi).
Proof. unfold suggest_float. silent_steps. Qed.

Lemma silent_suggest_int (trial : trial_ref) (name : string) (lo hi : Z) :
  silent (suggest_int trial name lo hi).
Proof. unfold suggest_int. silent_steps. Qed.

Lemma silent_torch_manual_seed (s : Z) : silent (torch_manual_seed s).
Proof. unfold torch_manual_seed. silent_steps. Qed.

Lemma silent_new_Net (dev : device) : silent (new_Net dev).
Proof. unfold new_Net. silent_steps. Qed.

Lemma silent_new_Adam (model : model_ref) (lr : Q) : silent (new_Adam model lr).
Proof. unfold new_Adam. silent_steps. Qed.

(** The call [test(model, device, test_loader, epoch)] passes four
    arguments to a function of three parameters. *)
Lemma call_test_with_epoch (model : model_ref) (dev : device)
    (test_loader : DataLoader) (epoch : Z) :
  py_call test_def [VModel model; VDevice dev; VLoader test_loader; VInt epoch] =
  raise (TypeError "test(): wrong number of positional arguments").
Proof. reflexivity. Qed.

Lemma call_train (args : Namespace) (model : model_ref) (dev : device)
    (train_loader : DataLoader) (optimizer : optimizer_ref) (epoch : Z) :
  py_call train_def [VNamespace args; VModel model; VDevice dev;
                     VLoader train_loader; VOptimizer optimizer; VInt epoch] =
  bind (train args model dev train_loader optimizer epoch) (fun _ => ret VNone).
Proof. reflexivity. Qed.

(** One turn of the epoch loop never completes: after the Trainer the
    call of [test] raises. *)
Lemma epoch_body_aborts (args : Namespace) (model : model_ref) (dev : device)
    (train_loader test_loader : DataLoader) (optimizer : optimizer_ref)
    (epoch : Z) (test_loss : option pyval) :
  aborts (epoch_body args model dev train_loader test_loader optimizer
            epoch test_loss).
Proof.
  unfold epoch_body. rewrite call_train, call_test_with_epoch.
  apply aborts_bind_r.
  - apply silent_bind; [apply silent_train | auto with silent].
  - intros _. apply aborts_bind_l, aborts_raise.
Qed.

Lemma epoch_body_TypeError (args : Namespace) (model : model_ref)
    (dev : device) (train_loader test_loader : DataLoader)
    (optimizer : optimizer_ref) (epoch : Z) (test_loss : option pyval)
    (w w1 : world) :
  train args model dev train_loader optimizer epoch w = (Returned tt, w1) ->
  epoch_body args model dev train_loader test_loader optimizer epoch test_loss w
  = (Raised (TypeError "test(): wrong number of positional arguments"), w1).
Proof.
  intros Ht. unfold epoch_body. rewrite call_train, call_test_with_epoch.
  unfold bind at 1. unfold bind at 1. rewrite Ht. reflexivity.
Qed.

Lemma epoch_loop_aborts_or_unbound (args : Namespace) (model : model_ref)
    (dev : device) (train_loader test_loader : DataLoader)
    (optimizer : optimizer_ref) (epochs : Z) :
  hoare quiet
    (for_fold (range epochs)
       (epoch_body args model dev train_loader test_loader optimizer) None)
    (fun test_loss => test_loss = None).
Proof.
  apply hoare_for_fold; [apply quiet_refl | apply quiet_trans | reflexivity |].
  intros epoch s _. eapply hoare_weaken; [apply epoch_body_aborts |].
  intros a [].
Qed.

(** [objective] never returns, and whatever it does before it raises,
    it records no trial, runs no Evaluator and steps no Scheduler. *)
Lemma objective_aborts (trial : trial_ref) : aborts (objective trial).
Proof.
  unfold objective.
  apply aborts_bind_r; [apply silent_run_parse_args | intros args].
  apply aborts_bind_r; [apply silent_torch_manual_seed | intros _].
  apply aborts_bind_r; [apply silent_suggest_float | intros lr].
  apply aborts_bind_r; [apply silent_suggest_int | intros epochs].
  apply aborts_bind_r; [now apply silent_emit | intros _].
  apply aborts_bind_r; [apply silent_make_loaders | intros [tl sl]].
  apply aborts_bind_r; [apply silent_new_Net | intros model].
  apply aborts_bind_r; [apply silent_new_Adam | intros optimizer].
  eapply hoare_bind; [apply quiet_trans | apply epoch_loop_aborts_or_unbound |].
  intros test_loss ->.
  apply aborts_bind_r; [| intros _; apply aborts_raise].
  destruct (save_model args); [now apply silent_emit | auto with silent].
Qed.

Lemma optimize_objective_aborts : aborts (optimize objective 5).
Proof.
  unfold optimize. change (range 5) with [0; 1; 2; 3; 4]. cbn [for_fold].
  apply aborts_bind_l. apply aborts_bind_r; [auto with silent | intros _].
  apply aborts_bind_l, objective_aborts.
Qed.

(** A statement that aborts ends in an exception. *)
Lemma aborts_raises {A} (c : M world A) (w : world) :
  aborts c -> exists e w', c w = (Raised e, w') /\ quiet w w'.
Proof.
  intros H. destruct (H w) as [Hq Hr].
  destruct (c w) as [[a | e] w'] eqn:E; simpl in *.
  - destruct (Hr a eq_refl).
  - eauto.
Qed.

End QuietScript.

(* ===================================================================== *)
(** ** The Evaluator: [test] *)
(* ===================================================================== *)

Section Evaluator.

Context `{L : Libs}.






(** C7. On a test set that is not empty, and with a loss that is not
    negative on the rows the model puts out, [test] returns a mean loss
    that is not negative and reports an accuracy between 0 and 100. *)
Theorem test_accuracy_and_loss_bounds (model : model_ref) (dev : device)
    (test_loader : DataLoader) (w : world) :
  (forall p data, Forall (fun row => forall t, 0 <= nll row t)%Q (forward p data)) ->
  dl_dataset test_loader <> [] ->
  exists (mean_loss accuracy : Q) (correct : Z) (w' : world) (es : list event),
    test model dev test_loader w = (Returned mean_loss, w') /\
    w_trace w' =
      w_trace w ++ es ++
      [WandbLog {[ "test acc" := SFloat accuracy;
                   "test loss" := SFloat mean_loss ]};
       PrintTest mean_loss correct (len (dl_dataset test_loader)) accuracy] /\
    (0 <= accuracy <= 100)%Q /\ (0 <= mean_loss)%Q.
Proof.
  intros Hloss Hne.
  destruct (batches_of_returns test_loader w) as (bs & w1 & Hb).
  pose proof (batches_of_inv _ _ _ _ Hb) as (Hperm & Hw & _ & _).
  pose proof (test_run model dev _ _ _ _ Hb Hne) as Ht. cbv zeta in Ht.
  assert (Hn : 0 < len (dl_dataset test_loader)) by now apply len_pos_iff.
  eexists _, _, _, _, _. split; [exact Ht |]. split; [| split].
  - cbn [add_events w_trace]. rewrite Hw. cbn [with_rng w_trace].
    reflexivity.
  - apply percent_bounds; [| exact Hn].
    pose proof (correct_count_bounds (weights (w_net w)) bs) as Hc.
    unfold len in *. rewrite (Permutation_length Hperm) in Hc. exact Hc.
  - apply mean_nonneg; [| exact Hn]. apply accumulated_loss_nonneg, Hloss.
Qed.

(** C9. The divisions of [test] by the number of examples are not
    guarded: on an empty test set the call raises [ZeroDivisionError];
    on a test set with an example it returns. *)
Theorem test_division_by_example_count (model : model_ref) (dev : device)
    (test_loader : DataLoader) (w : world) :
  (len (dl_dataset test_loader) = 0 ->
   exists w', test model dev test_loader w =
              (Raised (ZeroDivisionError "division by zero"), w')) /\
  (0 < len (dl_dataset test_loader) ->
   exists mean_loss w', test model dev test_loader w = (Returned mean_loss, w')).
Proof.
  split.
  - intros H0. apply test_empty.
    destruct (dl_dataset test_loader); [reflexivity | discriminate].
  - intros Hn. apply len_pos_iff in Hn.
    destruct (batches_of_returns test_loader w) as (bs & w1 & Hb).
    pose proof (test_run model dev _ _ _ _ Hb Hn) as Ht. cbv zeta in Ht.
    eauto.
Qed.

End Evaluator.

(* ===================================================================== *)
(** ** The Trainer: [train] *)
(* ===================================================================== *)

Section Trainer.

Context `{L : Libs}.

(** C6. In a dry run with a log interval of at least 1, one call of
    [train] does the forward pass, the backward pass and the optimizer
    step of the first batch, prints its progress record and returns, in
    the world that this one step and this one record leave: one batch is
    processed (none when the loader has none), and nothing is sent to
    wandb. *)
Theorem dry_run_processes_one_batch (args : Namespace) (model : model_ref)
    (dev : device) (train_loader : DataLoader) (optimizer : optimizer_ref)
    (epoch : Z) (w w1 : world) (bs : list Batch) :
  dry_run args = true ->
  1 <= log_interval args ->
  batches_of train_loader w = (Returned bs, w1) ->
  exists (w' : world) (es : list event),
    train args model dev train_loader optimizer epoch w = (Returned tt, w') /\
    w' = match bs with
         | [] => w1
         | b :: _ => add_events [progress dev train_loader epoch 0 b w1]
                       (after_step dev epoch 0 b w1)
         end /\
    w_trace w' = w_trace w ++ es /\
    es = match bs with
         | [] => []
         | b :: _ => [Forward epoch 0; Backward epoch 0; OptimizerStep epoch 0;
                      progress dev train_loader epoch 0 b w1]
         end /\
    count_events is_forward es = Nat.min 1 (length bs) /\
    count_events is_backward es = Nat.min 1 (length bs) /\
    count_events is_optimizer_step es = Nat.min 1 (length bs) /\
    (count_events is_wandb_log es <= 1)%nat.
Proof.
  intros Hdry Hli Hb.
  pose proof (batches_of_inv _ _ _ _ Hb) as (_ & Hw & Hne & _).
  unfold train. rewrite (bind_returned _ _ _ _ _ Hb).
  destruct bs as [| b rest].
  - exists w1, []. cbn [for_each enumerate enumerate_from].
    split; [reflexivity |]. split; [reflexivity |]. split.
    { rewrite Hw. cbn [with_rng w_trace]. now rewrite app_nil_r. }
    unfold count_events. cbn. repeat split; lia.
  - assert (Hlen : loader_len train_loader <> 0).
    { pose proof (loader_len_pos train_loader (Hne ltac:(discriminate))). lia. }
    assert (Hli' : log_interval args <> 0) by lia.
    cbn [for_each enumerate enumerate_from].
    pose proof (train_batch_first args dev train_loader epoch b w1 Hli' Hlen) as H1.
    rewrite Hdry in H1. rewrite (bind_returned _ _ _ _ _ H1).
    eexists _, _. split; [reflexivity |]. split; [reflexivity |].
    split; [| split; [reflexivity |]].
    + cbn [add_events after_step w_trace]. rewrite Hw. cbn [with_rng w_trace].
      now rewrite <- app_assoc.
    + unfold count_events. cbn. repeat split; lia.
Qed.

(** C10. The logging check of [train] computes [batch_idx %
    args.log_interval] unguarded.  With a log interval of 0 the first
    batch raises [ZeroDivisionError], after its optimizer step.  With a
    log interval of at least 1 the modulo returns for every index, no
    batch raises, and the first batch takes the logging branch. *)
Theorem log_interval_modulo_unguarded (args : Namespace) (model : model_ref)
    (dev : device) (train_loader : DataLoader) (optimizer : optimizer_ref)
    (epoch : Z) (w w1 : world) (b : Batch) (rest : list Batch) :
  batches_of train_loader w = (Returned (b :: rest), w1) ->
  (log_interval args = 0 ->
   train args model dev train_loader optimizer epoch w =
   (Raised (ZeroDivisionError "integer modulo by zero"),
    after_step dev epoch 0 b w1)) /\
  (1 <= log_interval args ->
   (forall (idx : Z) (w0 : world),
      py_mod idx (log_interval args) w0 =
      (Returned (idx mod log_interval args), w0)) /\
   exists (w' : world) (es : list event),
     train args model dev train_loader optimizer epoch w = (Returned tt, w') /\
     w_trace w' =
       w_trace w ++
       [Forward epoch 0; Backward epoch 0; OptimizerStep epoch 0;
        progress dev train_loader epoch 0 b w1] ++ es).
Proof.
  intros Hb.
  pose proof (batches_of_inv _ _ _ _ Hb) as (_ & Hw & Hne & _).
  assert (Hlen : loader_len train_loader <> 0).
  { pose proof (loader_len_pos train_loader (Hne ltac:(discriminate))). lia. }
  assert (Htr : w_trace w1 = w_trace w) by (rewrite Hw; reflexivity).
  unfold train. rewrite (bind_returned _ _ _ _ _ Hb).
  cbn [for_each enumerate enumerate_from]. split.
  - intros H0.
    now rewrite (bind_raised _ _ _ _ _
                   (train_batch_log_interval_zero args dev _ epoch 0 b w1 H0)).
  - intros Hli. assert (Hli' : log_interval args <> 0) by lia.
    split; [intros idx w0; now apply py_mod_total |].
    pose proof (train_batch_first args dev train_loader epoch b w1 Hli' Hlen) as H1.
    destruct (dry_run args).
    + rewrite (bind_returned _ _ _ _ _ H1). eexists _, []. split; [reflexivity |].
      cbn [add_events after_step w_trace]. rewrite Htr, app_nil_r.
      now rewrite <- app_assoc.
    + rewrite (bind_returned _ _ _ _ _ H1).
      match goal with
      | |- context [for_each ?items ?body ?w2] =>
          destruct (for_each_train_batch_returns args dev train_loader epoch
                      items w2 Hli' Hlen) as (w' & Hr & es & Hes)
      end.
      rewrite Hr. eexists w', _. split; [reflexivity |].
      rewrite Hes. cbn [add_events after_step w_trace]. rewrite Htr.
      rewrite <- !app_assoc. reflexivity.
Qed.

End Trainer.

(* ===================================================================== *)
(** ** The objective and the study *)
(* ===================================================================== *)

Section Study.

Context `{L : Libs}.

(** [main] up to the call of the objective in the first trial. *)
Lemma main_until_first_objective (w : world) (e : exn) (w' : world) :
  objective (a_trial 0) (first_trial_world w) = (Raised e, w') ->
  main w = (Raised e, w').
Proof.
  intros H. unfold main.
  assert (Hc : create_study w =
               (Returned tt,
                {| w_argv := w_argv w; w_trace := w_trace w; w_rng := w_rng w;
                   w_net := w_net w; w_sampler := new_sampler;
                   w_params := w_params w; w_trials := [] |})) by reflexivity.
  rewrite (bind_returned _ _ _ _ _ Hc).
  apply bind_raised. unfold optimize.
  change (range 5) with [0; 1; 2; 3; 4]. cbn [for_fold].
  apply bind_raised. unfold bind at 1. cbn [set_params modify].
  cbn [w_argv w_trace w_rng w_net w_sampler w_params w_trials].
  fold (first_trial_world w). now apply bind_raised.
Qed.

Lemma run_parse_args_usage_error (w : world) (msg : string) :
  parse_args (w_argv w) = UsageError msg ->
  run_parse_args w = (Raised (SystemExit 2), add_events [Stderr msg] w).
Proof.
  intros H. unfold run_parse_args. unfold bind at 1. cbn [get]. rewrite H.
  now rewrite (bind_returned _ _ _ _ _ (emit_eq _ _)).
Qed.

Lemma objective_usage_error (trial : trial_ref) (w : world) (msg : string) :
  parse_args (w_argv w) = UsageError msg ->
  objective trial w = (Raised (SystemExit 2), add_events [Stderr msg] w).
Proof.
  intros H. unfold objective.
  apply bind_raised, run_parse_args_usage_error, H.
Qed.

(** C2. When [argparse] refuses the command line, [main] ends with exit
    status 2 after the usage message, the only thing it puts out: the
    study exists with a fresh sampler, no parameter was sampled, no trial
    recorded, and the generator and the model are as they were. *)
Theorem usage_error_exits_before_trial_work (w : world) (msg : string) :
  parse_args (w_argv w) = UsageError msg ->
  exists w',
    main w = (Raised (SystemExit 2), w') /\
    w_trace w' = w_trace w ++ [Stderr msg] /\
    w_sampler w' = new_sampler /\ w_params w' = ∅ /\ w_trials w' = [] /\
    w_rng w' = w_rng w /\ w_net w' = w_net w.
Proof.
  intros H. exists (add_events [Stderr msg] (first_trial_world w)).
  split; [| now repeat split].
  apply main_until_first_objective, objective_usage_error, H.
Qed.

(** C1. No call of [objective] returns a loss: whatever the command line,
    the sampled parameters and the data, the call ends in an exception,
    and up to there no Evaluator pass has run and the Scheduler has not
    stepped.  In every turn of the epoch loop the Trainer pass is followed
    by the [TypeError] of [test(model, device, test_loader, epoch)], four
    arguments for the three parameters of [test], unless the Trainer
    itself raised. *)
Theorem objective_never_returns_a_loss (trial : trial_ref) (w : world) :
  (exists e w',
     objective trial w = (Raised e, w') /\
     count_events is_eval_or_scheduler (w_trace w') =
     count_events is_eval_or_scheduler (w_trace w)) /\
  (forall (args : Namespace) (model : model_ref) (dev : device)
          (train_loader test_loader : DataLoader) (optimizer : optimizer_ref)
          (epoch : Z) (test_loss : option pyval) (w0 : world),
     epoch_body args model dev train_loader test_loader optimizer epoch
       test_loss w0 =
     match train args model dev train_loader optimizer epoch w0 with
     | (Returned _, w1) =>
         (Raised (TypeError "test(): wrong number of positional arguments"), w1)
     | (Raised e, w1) => (Raised e, w1)
     end).
Proof.
  split.
  - destruct (aborts_raises _ w (objective_aborts trial)) as (e & w' & He & Hq).
    exists e, w'. split; [exact He |].
    destruct Hq as (_ & Hev & _). unfold count_events. now rewrite Hev.
  - intros. unfold epoch_body. rewrite call_train, call_test_with_epoch.
    rewrite !bind_unfold.
    destruct (train args model dev train_loader optimizer epoch w0)
      as [[[] | e] w1]; reflexivity.
Qed.

(** C4. No run of [main] reports best parameters: the first trial ends
    in an exception that [study.optimize] does not catch, so the study
    ends with no finished trial and nothing is printed for it. *)
Theorem main_never_reports_best_params (w : world) :
  exists e w',
    main w = (Raised e, w') /\
    w_trials w' = [] /\
    count_events is_best_report (w_trace w') =
    count_events is_best_report (w_trace w).
Proof.
  destruct (aborts_raises _ (first_trial_world w) (objective_aborts (a_trial 0)))
    as (e & w' & He & Ht & _ & Hb).
  exists e, w'. split; [now apply main_until_first_objective |].
  split; [exact Ht |]. unfold count_events. now rewrite Hb.
Qed.

(** The two loaders that [objective] builds, by the device in use. *)
Lemma make_loaders_eq (args : Namespace) (use_cuda : bool) (w : world) :
  make_loaders args use_cuda w =
  if (batch_size args <=? 0)
  then (Raised (ValueError "batch_size should be a positive integer value"), w)
  else if (test_batch_size args <=? 0)
  then (Raised (ValueError "batch_size should be a positive integer value"), w)
  else
    (Returned
       ({| dl_dataset := mnist_train;
           dl_batch_size := Z.to_pos (batch_size args);
           dl_shuffle := use_cuda;
           dl_num_workers := if use_cuda then 1 else 0;
           dl_pin_memory := use_cuda |},
        {| dl_dataset := mnist_test;
           dl_batch_size := Z.to_pos (test_batch_size args);
           dl_shuffle := use_cuda;
           dl_num_workers := if use_cuda then 1 else 0;
           dl_pin_memory := use_cuda |}), w).
Proof.
  unfold make_loaders, new_DataLoader, kw_int, kw_bool, dict_update.
  destruct args as [bsz tbsz gm nc dr sd li sm].
  cbn [batch_size test_batch_size].
  destruct use_cuda, bsz as [| ? | ?], tbsz as [| ? | ?]; reflexivity.
Qed.

(** C8, as the code has it. Both loaders shuffle exactly when CUDA is in
    use: [shuffle] is set only in [cuda_kwargs].  Every pass of the
    training loader draws its base seed from the generator.  Without CUDA
    it then serves the dataset in its own order; with CUDA it serves the
    permutation the generator draws next. *)
Theorem loaders_shuffle_only_with_cuda (args : Namespace) (use_cuda : bool)
    (w w' : world) (train_loader test_loader : DataLoader) :
  make_loaders args use_cuda w = (Returned (train_loader, test_loader), w') ->
  dl_shuffle train_loader = use_cuda /\
  dl_shuffle test_loader = use_cuda /\
  forall w0 : world,
    batches_of train_loader w0 =
    if use_cuda then
      (Returned (batched (Pos.to_nat (dl_batch_size train_loader))
                   (shuffle (draw_base_seed (w_rng w0)) mnist_train).1),
       with_rng (shuffle (draw_base_seed (w_rng w0)) mnist_train).2 w0)
    else
      (Returned (batched (Pos.to_nat (dl_batch_size train_loader)) mnist_train),
       with_rng (draw_base_seed (w_rng w0)) w0).
Proof.
  rewrite make_loaders_eq.
  destruct (batch_size args <=? 0); [discriminate |].
  destruct (test_batch_size args <=? 0); [discriminate |].
  intros [= <- <- <-]. cbn [dl_shuffle dl_batch_size].
  split; [reflexivity |]. split; [reflexivity |]. intros w0.
  unfold batches_of, serving_order. cbn [dl_shuffle dl_dataset dl_batch_size].
  destruct use_cuda; [| reflexivity].
  unfold bind, get, set_rng, modify, ret.
  destruct (shuffle (draw_base_seed (w_rng w0)) mnist_train) as [xs g].
  reflexivity.
Qed.

(** A call of [objective] does not depend on the state in which it finds
    the generator: once the command line is parsed, [torch.manual_seed]
    sets the generator anew, so the call ends in the same exception and
    leaves the same world, trained weights and generator included. *)
Theorem objective_reseeds (trial : trial_ref) (g : Rng) (w : world)
    (args : Namespace) :
  parse_args (w_argv w) = Parsed args ->
  seed_in_range (seed args) = true ->
  objective trial (with_rng g w) = objective trial w.
Proof.
  intros Hparse Hseed.
  assert (Hp : forall w0, parse_args (w_argv w0) = Parsed args ->
                          run_parse_args w0 = (Returned args, w0)).
  { intros w0 H0. unfold run_parse_args, bind, get. now rewrite H0. }
  unfold objective.
  rewrite (bind_returned _ _ _ _ _ (Hp w Hparse)).
  rewrite (bind_returned _ _ _ _ _ (Hp (with_rng g w) Hparse)).
  rewrite !(bind_unfold (torch_manual_seed _)).
  unfold torch_manual_seed. rewrite Hseed. reflexivity.
Qed.

Lemma run_parse_args_parsed (w : world) (args : Namespace) :
  parse_args (w_argv w) = Parsed args -> run_parse_args w = (Returned args, w).
Proof.
  intros H. unfold run_parse_args. unfold bind at 1. cbn [get]. now rewrite H.
Qed.

Lemma torch_manual_seed_in_range (s : Z) (w : world) :
  seed_in_range s = true ->
  torch_manual_seed s w =
  (Returned tt, add_events [ManualSeed s] (with_rng (manual_seed s) w)).
Proof. intros H. unfold torch_manual_seed. rewrite H. reflexivity. Qed.




Lemma new_Net_returns (dev : device) (w : world) :
  exists w', new_Net dev w = (Returned the_model, w') /\
             w_trace w' = w_trace w ++ [NetCreated dev].
Proof.
  unfold new_Net. unfold bind at 1. cbn [get].
  destruct (Net (w_rng w)) as [p g]. eexists. split; reflexivity.
Qed.

Lemma new_Adam_returns (model : model_ref) (lr : Q) (w : world) :
  exists w', new_Adam model lr w = (Returned the_optimizer, w') /\
             w_trace w' = w_trace w.
Proof.
  unfold new_Adam. unfold bind at 1. cbn [get]. eexists. split; reflexivity.
Qed.

Lemma range_first (n : Z) : 0 < n -> exists rest, range n = 0 :: rest.
Proof.
  intros Hn. unfold range.
  destruct (Z.to_nat n) as [| k] eqn:E; [lia |].
  simpl. eauto.
Qed.

Lemma sampled_in_range (w : world) :
  (0 < sampled_lr w <= 1 # 1000)%Q /\ 1 <= sampled_epochs w <= 10.
Proof.
  unfold sampled_lr, sampled_epochs. split.
  - assert (Hle : (1 # 100000 <= 1 # 1000)%Q) by (vm_compute; discriminate).
    destruct (sample_float_range (w_sampler w) _ _ Hle) as [H1 H2].
    split; [| exact H2]. eapply Qlt_le_trans; [| exact H1]. reflexivity.
  - apply sample_int_range. lia.
Qed.

Lemma suggest_float_eq (trial : trial_ref) (name : string) (lo hi : Q)
    (w : world) :
  suggest_float trial name lo hi w =
  (Returned (sample_float (w_sampler w) lo hi).1,
   {| w_argv := w_argv w;
      w_trace := w_trace w ++
                 [Suggested name (SFloat (sample_float (w_sampler w) lo hi).1)];
      w_rng := w_rng w; w_net := w_net w;
      w_sampler := (sample_float (w_sampler w) lo hi).2;
      w_params := <[ name := SFloat (sample_float (w_sampler w) lo hi).1 ]>
                    (w_params w);
      w_trials := w_trials w |}).
Proof.
  unfold suggest_float. unfold bind at 1. cbn [get].
  destruct (sample_float (w_sampler w) lo hi) as [v s]. reflexivity.
Qed.

Lemma suggest_int_eq (trial : trial_ref) (name : string) (lo hi : Z)
    (w : world) :
  suggest_int trial name lo hi w =
  (Returned (sample_int (w_sampler w) lo hi).1,
   {| w_argv := w_argv w;
      w_trace := w_trace w ++
                 [Suggested name (SInt (sample_int (w_sampler w) lo hi).1)];
      w_rng := w_rng w; w_net := w_net w;
      w_sampler := (sample_int (w_sampler w) lo hi).2;
      w_params := <[ name := SInt (sample_int (w_sampler w) lo hi).1 ]>
                    (w_params w);
      w_trials := w_trials w |}).
Proof.
  unfold suggest_int. unfold bind at 1. cbn [get].
  destruct (sample_int (w_sampler w) lo hi) as [v s]. reflexivity.
Qed.

(** [objective] up to [wandb.init], for a command line that parses and a
    seed that [torch.manual_seed] takes. *)
Lemma objective_prologue (trial : trial_ref) (w : world) (args : Namespace) :
  parse_args (w_argv w) = Parsed args ->
  seed_in_range (seed args) = true ->
  objective trial w =
  trial_body args (sampled_lr w) (sampled_epochs w) (prologue_world args w).
Proof.
  intros Hp Hseed. unfold objective.
  rewrite (bind_returned _ _ _ _ _ (run_parse_args_parsed w args Hp)).
  rewrite (bind_returned _ _ _ _ _ (torch_manual_seed_in_range _ w Hseed)).
  rewrite (bind_returned _ _ _ _ _ (suggest_float_eq _ _ _ _ _)).
  rewrite (bind_returned _ _ _ _ _ (suggest_int_eq _ _ _ _ _)).
  rewrite (bind_returned _ _ _ _ _ (emit_eq _ _)).
  unfold trial_body. f_equal.
  unfold prologue_world, prologue_events, wandb_config, sampled_lr,
    sampled_epochs, add_events, with_rng.
  cbn [w_argv w_trace w_rng w_net w_sampler w_params w_trials].
  now rewrite <- !app_assoc.
Qed.

(** With a log interval of zero and a batch to train on, [train] raises
    in the first batch, after its step. *)
Lemma train_log_interval_zero_trace (args : Namespace) (model : model_ref)
    (dev : device) (dl : DataLoader) (optimizer : optimizer_ref) (epoch : Z)
    (w : world) :
  log_interval args = 0 -> dl_dataset dl <> [] ->
  exists w', train args model dev dl optimizer epoch w =
             (Raised (ZeroDivisionError "integer modulo by zero"), w') /\
             w_trace w' = w_trace w ++ [Forward epoch 0; Backward epoch 0;
                                        OptimizerStep epoch 0].
Proof.
  intros H0 Hne. destruct (batches_of_returns dl w) as (bs & w1 & Hb).
  pose proof (batches_of_inv _ _ _ _ Hb) as (_ & Hw & _).
  unfold train. rewrite (bind_returned _ _ _ _ _ Hb).
  destruct bs as [| b rest].
  - now apply batches_nil_inv in Hb.
  - cbn [for_each enumerate enumerate_from].
    rewrite (bind_raised _ _ _ _ _
               (train_batch_log_interval_zero args dev dl epoch 0 b w1 H0)).
    eexists. split; [reflexivity |].
    cbn [after_step w_trace]. rewrite Hw. reflexivity.
Qed.

(** A log interval of 0 that [argparse] accepted reaches the Trainer
    unchecked: with a seed that [torch.manual_seed] takes, batch sizes
    that are positive and a training set that is not empty, the trial
    seeds, samples, opens its wandb run, builds the model, and raises in
    the first batch of the first epoch, after the optimizer step. *)
Theorem objective_log_interval_zero (trial : trial_ref) (w : world)
    (args : Namespace) :
  parse_args (w_argv w) = Parsed args ->
  seed_in_range (seed args) = true ->
  log_interval args = 0 ->
  0 < batch_size args -> 0 < test_batch_size args ->
  mnist_train <> [] ->
  exists w',
    objective trial w =
    (Raised (ZeroDivisionError "integer modulo by zero"), w') /\
    w_trace w' =
      w_trace w ++ prologue_events args w ++
      [NetCreated (if negb (no_cuda args) && cuda_is_available
                   then cuda else cpu);
       Forward 0 0; Backward 0 0; OptimizerStep 0 0].
Proof.
  intros Hp Hseed H0 Hb Htb Hne.
  rewrite (objective_prologue trial w args Hp Hseed). unfold trial_body.
  set (use_cuda := negb (no_cuda args) && cuda_is_available).
  pose proof (make_loaders_eq args use_cuda (prologue_world args w)) as Hl.
  destruct (Z.leb_spec (batch_size args) 0) as [? | _]; [lia |].
  destruct (Z.leb_spec (test_batch_size args) 0) as [? | _]; [lia |].
  rewrite (bind_returned _ _ _ _ _ Hl).
  destruct (new_Net_returns (if use_cuda then cuda else cpu)
              (prologue_world args w)) as (w4 & Hn & Ht4).
  rewrite (bind_returned _ _ _ _ _ Hn).
  destruct (new_Adam_returns the_model (sampled_lr w) w4) as (w5 & Ha & Ht5).
  rewrite (bind_returned _ _ _ _ _ Ha).
  destruct (sampled_in_range w) as [_ Hep].
  destruct (range_first (sampled_epochs w) ltac:(lia)) as (rest & ->).
  cbn [for_fold]. unfold epoch_body. rewrite call_train.
  match goal with |- context [train ?a ?m ?d ?l ?o ?e] =>
    destruct (train_log_interval_zero_trace a m d l o e w5 H0 Hne)
      as (w6 & Ht & Ht6)
  end.
  exists w6. split; [do 4 (apply bind_raised); exact Ht |].
  rewrite Ht6, Ht5, Ht4. cbn [prologue_world w_trace].
  now rewrite <- !app_assoc.
Qed.

(** One pass of a loader serves every example of the dataset in exactly
    one batch: the batch sizes add up to the length of the dataset. *)
Theorem batches_cover_dataset_once (dl : DataLoader) (w w1 : world)
    (bs : list Batch) :
  batches_of dl w = (Returned bs, w1) ->
  Permutation (concat bs) (dl_dataset dl) /\
  fold_left Z.add (map len bs) 0 = len (dl_dataset dl).
Proof.
  intros H. apply batches_of_inv in H as (Hp & _). split; [exact Hp |].
  unfold len at 2. rewrite <- (Permutation_length Hp). clear.
  induction bs as [| b bs IH]; [reflexivity |].
  cbn [map fold_left concat]. rewrite fold_left_Zadd, IH.
  unfold len. rewrite length_app. lia.
Qed.

End Study.

(* ===================================================================== *)
(** ** The shape of the batches *)
(* ===================================================================== *)

Section BatchShape.

Context {A : Type}.

Lemma length_batched_go (n : nat) (xs cur : list A) :
  (1 <= n)%nat -> (length cur < n)%nat ->
  length (batched_go n cur xs) = ((length cur + length xs + n - 1) / n)%nat.
Proof.
  intros Hn. revert cur. induction xs as [| x xs IH]; intros cur Hc.
  - cbn [batched_go length]. rewrite Nat.add_0_r.
    destruct cur as [| c cur].
    + cbn [length]. symmetry. apply Nat.div_small. lia.
    + cbn [length] in *.
      apply (Nat.div_unique _ n 1 (length cur)); lia.
  - cbn [batched_go]. destruct (Nat.eqb_spec (length (x :: cur)) n) as [E | E].
    + cbn [length] in *. rewrite IH by (cbn [length]; lia). cbn [length].
      replace (length cur + S (length xs) + n - 1)%nat
        with (1 * n + (0 + length xs + n - 1))%nat by lia.
      rewrite Nat.div_add_l by lia. lia.
    + cbn [length] in *. rewrite IH by (cbn [length]; lia). cbn [length].
      f_equal. lia.
Qed.

Lemma batched_go_sizes (n : nat) (xs cur : list A) :
  (1 <= n)%nat -> (length cur < n)%nat ->
  Forall (fun b => 1 <= length b <= n)%nat (batched_go n cur xs).
Proof.
  intros Hn. revert cur. induction xs as [| x xs IH]; intros cur Hc.
  - cbn [batched_go]. destruct cur as [| c cur]; constructor; [| constructor].
    rewrite length_rev. cbn [length] in *. lia.
  - cbn [batched_go]. destruct (Nat.eqb_spec (length (x :: cur)) n) as [E | E].
    + constructor; [rewrite length_rev; lia | apply IH; cbn [length]; lia].
    + apply IH. cbn [length] in *. lia.
Qed.

End BatchShape.

Section LoaderShape.

Context `{L : Libs}.

Lemma batches_of_shape (dl : DataLoader) (w w1 : world) (bs : list Batch) :
  batches_of dl w = (Returned bs, w1) ->
  exists xs, bs = batched (Pos.to_nat (dl_batch_size dl)) xs /\
             Permutation xs (dl_dataset dl).
Proof.
  destruct (serving_order_returns dl w) as (xs & w' & H).
  unfold batches_of. rewrite (bind_returned _ _ _ _ _ H). unfold ret.
  intros [= <- <-]. exists xs. split; [reflexivity |].
  now apply serving_order_inv in H as (Hp & _).
Qed.

Lemma enumerate_from_bounds {A} (i : Z) (xs : list A) (idx : Z) (x : A) :
  In (idx, x) (enumerate_from i xs) -> i <= idx < i + len xs.
Proof.
  revert i. induction xs as [| y xs IH]; intros i; [intros [] |].
  cbn [enumerate_from]. unfold len. cbn [length].
  intros [[= <- <-] | Hin]; [lia |].
  apply IH in Hin. unfold len in Hin. lia.
Qed.

(** One pass of a loader serves [len(loader)] batches, the number of
    examples over the batch size rounded up; no batch is empty and none
    holds more than the batch size; so the percentage that [train] prints
    for a batch is at least 0 and stays below 100. *)
Theorem loader_serves_len_batches (dl : DataLoader) (w w1 : world)
    (bs : list Batch) :
  batches_of dl w = (Returned bs, w1) ->
  len bs = loader_len dl /\
  Forall (fun b => 1 <= len b <= Z.pos (dl_batch_size dl)) bs /\
  forall (idx : Z) (b : Batch),
    In (idx, b) (enumerate bs) ->
    (0 <= 100 * inject_Z idx / inject_Z (loader_len dl) < 100)%Q.
Proof.
  intros H. destruct (batches_of_shape _ _ _ _ H) as (xs & -> & Hp).
  pose proof (Pos2Nat.is_pos (dl_batch_size dl)) as Hpos.
  assert (Hlen : len (batched (Pos.to_nat (dl_batch_size dl)) xs) = loader_len dl).
  { unfold len, loader_len, batched.
    rewrite length_batched_go by (cbn [length]; lia). cbn [length].
    pose proof (Permutation_length Hp) as Hl.
    rewrite Nat2Z.inj_div, <- (positive_nat_Z (dl_batch_size dl)).
    f_equal. unfold len, Example in *. lia. }
  split; [exact Hlen |]. split.
  - pose proof (batched_go_sizes (Pos.to_nat (dl_batch_size dl)) xs []
                  ltac:(lia) ltac:(cbn [length]; lia)) as Hs.
    unfold batched. eapply Forall_impl; [exact Hs |].
    intros b Hb. cbn beta in Hb. unfold len. lia.
  - intros idx b Hin. apply enumerate_from_bounds in Hin.
    assert (Hidx : 0 <= idx < loader_len dl)
      by (unfold len, Batch, Example in *; lia).
    assert (Hn : (0 < inject_Z (loader_len dl))%Q).
    { change 0%Q with (inject_Z 0). rewrite <- Zlt_Qlt. lia. }
    assert (H0 : (0 <= inject_Z idx)%Q).
    { change 0%Q with (inject_Z 0). rewrite <- Zle_Qle. lia. }
    assert (H1 : (inject_Z idx < inject_Z (loader_len dl))%Q)
      by (rewrite <- Zlt_Qlt; lia).
    split.
    + apply Qle_shift_div_l; [exact Hn | lra].
    + apply Qlt_shift_div_r; [exact Hn | lra].
Qed.

End LoaderShape.

(* ===================================================================== *)
(** ** What [train] and [test] leave alone *)
(* ===================================================================== *)

Section Frames.

Context `{L : Libs}.

Variables keep_rng keep_weights : bool.

Lemma frame_refl (w : world) : frame keep_rng keep_weights w w.
Proof. unfold frame. repeat split; auto using extends_refl. Qed.

Lemma frame_trans (w1 w2 w3 : world) :
  frame keep_rng keep_weights w1 w2 -> frame keep_rng keep_weights w2 w3 ->
  frame keep_rng keep_weights w1 w3.
Proof.
  intros (A1 & B1 & C1 & D1 & E1 & F1 & G1 & H1)
         (A2 & B2 & C2 & D2 & E2 & F2 & G2 & H2).
  unfold frame. repeat split; try congruence.
  - eapply extends_trans; eauto.
  - intros K. rewrite (G2 K). auto.
  - intros K. rewrite (H2 K). auto.
Qed.

Lemma framed_emit (e : event) :
  hoare (frame keep_rng keep_weights) (emit e) (fun _ => True).
Proof.
  apply hoare_modify; [| exact I]. intros w. unfold frame.
  repeat split; auto. now exists [e].
Qed.

Lemma framed_set_rng (g : Rng) :
  keep_rng = false ->
  hoare (frame keep_rng keep_weights) (set_rng g) (fun _ => True).
Proof.
  intros Hk. apply hoare_modify; [| exact I]. intros w. unfold frame.
  repeat split; auto.
  - exists []. cbn. now rewrite app_nil_r.
  - intros K. congruence.
Qed.

Lemma framed_bind {A B} (c : M world A) (k : A -> M world B) :
  hoare (frame keep_rng keep_weights) c (fun _ => True) ->
  (forall a, hoare (frame keep_rng keep_weights) (k a) (fun _ => True)) ->
  hoare (frame keep_rng keep_weights) (bind c k) (fun _ => True).
Proof.
  intros Hc Hk. eapply hoare_bind with (Q := fun _ : A => True);
    try apply frame_trans; [exact Hc | intros a _; apply Hk].
Qed.

Lemma framed_ret {A} (a : A) :
  hoare (frame keep_rng keep_weights) (ret a) (fun _ => True).
Proof. now apply hoare_ret; [apply frame_refl |]. Qed.

Lemma framed_batches_of (dl : DataLoader) :
  keep_rng = false ->
  hoare (frame keep_rng keep_weights) (batches_of dl) (fun _ => True).
Proof.
  intros Hk. unfold batches_of, serving_order.
  apply framed_bind; [| intros xs; apply framed_ret].
  apply framed_bind; [apply hoare_get; [apply frame_refl | auto] | intros w].
  destruct (dl_shuffle dl).
  - destruct (shuffle (draw_base_seed (w_rng w)) (dl_dataset dl)) as [xs g].
    apply framed_bind; [now apply framed_set_rng | intros _; apply framed_ret].
  - apply framed_bind; [now apply framed_set_rng | intros _; apply framed_ret].
Qed.

End Frames.

Section TrainTestFrames.

Context `{L : Libs}.

Lemma framed_train_batch (args : Namespace) (dev : device) (dl : DataLoader)
    (epoch : Z) (item : Z * Batch) :
  hoare (frame false false) (train_batch args dev dl epoch item) (fun _ => True).
Proof.
  destruct item as [idx b]. intros w. rewrite train_batch_step.
  assert (Hs : frame false false w (after_step dev epoch idx b w)).
  { unfold frame. repeat split; try discriminate.
    apply extends_after_step. }
  assert (Hk : hoare (frame false false)
                 (bind (py_mod idx (log_interval args))
                    (fun r =>
                       if r =? 0 then
                         bind (py_truediv (100 * inject_Z idx) (loader_len dl))
                           (fun percent =>
                              bind (emit (PrintTrain epoch (idx * len b.*1)
                                            (len (dl_dataset dl)) percent
                                            (fit_of dev b w).2))
                                (fun _ =>
                                   if dry_run args then ret false
                                   else bind (emit (WandbLog
                                                {[ "training loss" :=
                                                   SFloat (fit_of dev b w).2 ]}))
                                          (fun _ => ret true)))
                       else ret true))
                 (fun _ => True)).
  { apply framed_bind; [apply hoare_py_mod, frame_refl | intros r].
    destruct (r =? 0); [| apply framed_ret].
    apply framed_bind; [apply hoare_py_truediv, frame_refl | intros percent].
    apply framed_bind; [apply framed_emit | intros _].
    destruct (dry_run args); [apply framed_ret |].
    apply framed_bind; [apply framed_emit | intros _; apply framed_ret]. }
  destruct (Hk (after_step dev epoch idx b w)) as [Hr _].
  split; [| auto]. eapply frame_trans; [exact Hs | exact Hr].
Qed.

Lemma framed_train (args : Namespace) (model : model_ref) (dev : device)
    (train_loader : DataLoader) (optimizer : optimizer_ref) (epoch : Z) :
  hoare (frame false false)
    (train args model dev train_loader optimizer epoch) (fun _ => True).
Proof.
  unfold train. apply framed_bind; [now apply framed_batches_of | intros bs].
  apply hoare_for_each; [apply frame_refl | apply frame_trans |].
  intros item. apply framed_train_batch.
Qed.

(** Whether it returns or raises, [train] changes the weights, the
    generator and the trace, and nothing else: not the learning rate, not
    the sampler, not the trial's parameters, not the finished trials. *)
Theorem train_changes_only_model_and_generator (args : Namespace)
    (model : model_ref) (dev : device) (train_loader : DataLoader)
    (optimizer : optimizer_ref) (epoch : Z) (w : world) :
  frame false false w (train args model dev train_loader optimizer epoch w).2.
Proof. apply framed_train. Qed.

Lemma framed_test_batch (keep_rng : bool) (b : Batch) (acc : Q * Z) :
  hoare (frame keep_rng true) (test_batch b acc) (fun _ => True).
Proof.
  unfold test_batch. destruct acc as [l c].
  apply framed_bind; [apply hoare_get; [apply frame_refl | auto] | intros w].
  apply framed_bind; [apply framed_emit | intros _; apply framed_ret].
Qed.

(** Whether it returns or raises, [test] changes the trace and the
    generator, from which every pass of a loader draws, and nothing else:
    the weights and the learning rate stay as they were, and so do the
    sampler, the trial's parameters, the finished trials and the command
    line. *)
Theorem test_changes_only_trace_and_generator (model : model_ref)
    (dev : device) (test_loader : DataLoader) (w : world) :
  frame false true w (test model dev test_loader w).2.
Proof.
  assert (H : hoare (frame false true)
                (test model dev test_loader) (fun _ => True)).
  { unfold test. apply framed_bind.
    { now apply framed_batches_of. }
    intros bs. apply framed_bind.
    { apply hoare_for_fold with (I := fun _ => True);
        [apply frame_refl | apply frame_trans | exact I |].
      intros b acc _. apply framed_test_batch. }
    intros [l c].
    apply framed_bind; [apply hoare_py_truediv, frame_refl | intros mean].
    apply framed_bind; [apply hoare_py_truediv, frame_refl | intros acc].
    apply framed_bind; [apply framed_emit | intros _].
    apply framed_bind; [apply hoare_py_truediv, frame_refl | intros pct].
    apply framed_bind; [apply framed_emit | intros _; apply framed_ret]. }
  apply H.
Qed.

End TrainTestFrames.

(* ===================================================================== *)
(** ** The parameters of a trial *)
(* ===================================================================== *)

Section TrialParameters.

Context `{L : Libs}.

Lemma hoare_mono {A} (R R' : world -> world -> Prop) (c : M world A)
    (P : A -> Prop) :
  hoare R c P -> (forall w w', R w w' -> R' w w') -> hoare R' c P.
Proof.
  intros H HR w. destruct (H w) as [Hr Hq]. split; [apply HR, Hr | exact Hq].
Qed.

Lemma grows_refl (w : world) : grows w w.
Proof. split; [reflexivity | apply extends_refl]. Qed.

Lemma grows_trans (w1 w2 w3 : world) : grows w1 w2 -> grows w2 w3 -> grows w1 w3.
Proof.
  intros [A1 B1] [A2 B2]. split; [congruence | eapply extends_trans; eauto].
Qed.

Lemma growing_bind {A B} (c : M world A) (k : A -> M world B) :
  hoare grows c (fun _ => True) ->
  (forall a, hoare grows (k a) (fun _ => True)) ->
  hoare grows (bind c k) (fun _ => True).
Proof.
  intros Hc Hk. eapply hoare_bind with (Q := fun _ : A => True);
    try apply grows_trans; [exact Hc | intros a _; apply Hk].
Qed.

Lemma growing_emit (e : event) : hoare grows (emit e) (fun _ => True).
Proof.
  apply hoare_modify; [| exact I]. intros w. split; [reflexivity |].
  now exists [e].
Qed.

Lemma growing_ret {A} (a : A) : hoare grows (ret a) (fun _ => True).
Proof. now apply hoare_ret; [apply grows_refl |]. Qed.

Lemma growing_raise {A} (e : exn) :
  hoare grows (@raise world A e) (fun _ => True).
Proof. apply hoare_raise, grows_refl. Qed.

Lemma growing_trial_body (args : Namespace) (lr : Q) (epochs : Z) :
  hoare grows (trial_body args lr epochs) (fun _ => True).
Proof.
  unfold trial_body.
  apply growing_bind.
  { intros w. rewrite make_loaders_eq.
    destruct (batch_size args <=? 0), (test_batch_size args <=? 0);
      (split; [apply grows_refl | auto]). }
  intros [tl sl]. apply growing_bind.
  { intros w. destruct (new_Net_returns (if negb (no_cuda args)
                                              && cuda_is_available
                                         then cuda else cpu) w)
      as (w' & Hn & Ht).
    unfold new_Net in *. unfold bind at 1 in Hn. unfold bind at 1.
    cbn [get] in *. destruct (Net (w_rng w)) as [p g].
    split; [| auto]. split; [reflexivity | eexists; reflexivity]. }
  intros model. apply growing_bind.
  { intros w. split; [| auto]. split; [reflexivity |].
    exists []. cbn. now rewrite app_nil_r. }
  intros optimizer. apply growing_bind.
  { apply hoare_for_fold with (I := fun _ => True);
      [apply grows_refl | apply grows_trans | exact I |].
    intros epoch s _. unfold epoch_body.
    rewrite call_train, call_test_with_epoch.
    apply growing_bind; [| intros _; apply growing_bind;
                           [apply growing_raise | intros v; apply growing_bind;
                              [| intros _; apply growing_ret]]].
    - apply growing_bind; [| intros _; apply growing_ret].
      eapply hoare_mono; [apply framed_train |].
      intros w w' (_ & _ & Hpar & _ & _ & He & _). split; assumption.
    - unfold scheduler_step. apply growing_bind;
        [apply hoare_get; [apply grows_refl | auto] | intros w0].
      apply growing_bind; [| intros _; apply growing_emit].
      intros w. split; [| auto]. split; [reflexivity |].
      exists []. cbn. now rewrite app_nil_r. }
  intros test_loss. apply growing_bind.
  { destruct (save_model args); [apply growing_emit | apply growing_ret]. }
  intros _. destruct test_loss; [apply growing_ret | apply growing_raise].
Qed.

(** The parameters [objective] works with are the two it samples at
    lines 167 and 168: for a command line that parses and a seed that
    [torch.manual_seed] takes, the call seeds, samples a learning rate in
    (0, 0.001] and a number of epochs in [1, 10], opens the wandb run with
    the two in its configuration, and leaves the two as the parameters
    of the trial. *)
Theorem sampled_parameters_in_range (trial : trial_ref) (w : world)
    (args : Namespace) :
  parse_args (w_argv w) = Parsed args ->
  seed_in_range (seed args) = true ->
  exists (lr : Q) (epochs : Z) (e : exn) (w' : world) (es : list event),
    objective trial w = (Raised e, w') /\
    w_trace w' =
      w_trace w ++
      [ManualSeed (seed args); Suggested "lr" (SFloat lr);
       Suggested "epochs" (SInt epochs);
       WandbInit "plr-task_3"
         {[ "learning_rate" := SFloat lr; "architecture" := SStr "CNN";
            "dataset" := SStr "MNIST"; "epochs" := SInt epochs ]}] ++ es /\
    w_params w' = <[ "epochs" := SInt epochs ]>
                    (<[ "lr" := SFloat lr ]> (w_params w)) /\
    (0 < lr <= 1 # 1000)%Q /\ 1 <= epochs <= 10.
Proof.
  intros Hp Hseed.
  destruct (aborts_raises _ w (objective_aborts trial)) as (e & w' & He & _).
  pose proof (objective_prologue trial w args Hp Hseed) as Hpro.
  destruct (growing_trial_body args (sampled_lr w) (sampled_epochs w)
              (prologue_world args w)) as [[Hpar [es Hes]] _].
  rewrite <- Hpro, He in Hpar, Hes. cbn [snd] in Hpar, Hes.
  destruct (sampled_in_range w) as [Hlr Hep].
  exists (sampled_lr w), (sampled_epochs w), e, w', es.
  split; [exact He |]. split; [| split; [exact Hpar | split; assumption]].
  rewrite Hes. cbn [prologue_world w_trace]. unfold prologue_events, wandb_config.
  now rewrite <- app_assoc.
Qed.

End TrialParameters.

(* ===================================================================== *)
(** ** A full pass of the Trainer *)
(* ===================================================================== *)

Section FullPass.

Context `{L : Libs}.

Lemma count_events_app (f : event -> bool) (es1 es2 : list event) :
  count_events f (es1 ++ es2) = (count_events f es1 + count_events f es2)%nat.
Proof. unfold count_events. now rewrite List.filter_app, length_app. Qed.

(** A batch outside a dry run: the step, and for a logging batch the
    progress record and the wandb record. *)
Lemma train_batch_no_dry_run (args : Namespace) (dev : device)
    (dl : DataLoader) (epoch idx : Z) (b : Batch) (w : world) :
  dry_run args = false -> log_interval args <> 0 -> loader_len dl <> 0 ->
  train_batch args dev dl epoch (idx, b) w =
  (Returned true,
   add_events
     (if logs_at (log_interval args) (idx, b)
      then [progress dev dl epoch idx b w;
            WandbLog {[ "training loss" := SFloat (fit_of dev b w).2 ]}]
      else [])
     (after_step dev epoch idx b w)).
Proof.
  intros Hdry Hli Hlen. rewrite train_batch_step.
  rewrite (bind_returned _ _ _ _ _ (py_mod_total idx _ _ Hli)).
  unfold logs_at. cbn [fst]. destruct (idx mod log_interval args =? 0).
  - rewrite (bind_returned _ _ _ _ _ (py_truediv_total _ _ _ Hlen)).
    rewrite (bind_returned _ _ _ _ _ (emit_eq _ _)). rewrite Hdry.
    rewrite (bind_returned _ _ _ _ _ (emit_eq _ _)). unfold ret.
    now rewrite add_events_app.
  - unfold ret. now rewrite add_events_nil.
Qed.

Lemma train_loop_accounting (args : Namespace) (dev : device)
    (dl : DataLoader) (epoch : Z) (bs : list Batch) (i : Z) (w : world) :
  dry_run args = false -> log_interval args <> 0 -> loader_len dl <> 0 ->
  exists (w' : world) (es : list event),
    for_each (enumerate_from i bs) (train_batch args dev dl epoch) w
    = (Returned tt, w') /\
    w' = fold_left (after_batch args dev dl epoch) (enumerate_from i bs) w /\
    w_trace w' = w_trace w ++ es /\
    count_events is_forward es = length bs /\
    count_events is_backward es = length bs /\
    count_events is_optimizer_step es = length bs /\
    count_events is_print_train es =
      length (List.filter (logs_at (log_interval args)) (enumerate_from i bs)) /\
    count_events is_wandb_log es =
      length (List.filter (logs_at (log_interval args)) (enumerate_from i bs)).
Proof.
  intros Hdry Hli Hlen. revert i w.
  induction bs as [| b bs IH]; intros i w.
  - exists w, []. cbn. rewrite app_nil_r. repeat split; reflexivity.
  - cbn [for_each enumerate_from List.filter length fold_left].
    rewrite (bind_returned _ _ _ _ _
               (train_batch_no_dry_run args dev dl epoch i b w Hdry Hli Hlen)).
    match goal with |- context [for_each _ _ ?w2] =>
      destruct (IH (i + 1) w2)
        as (w' & es & Hr & Hfold & Ht & Hf & Hb & Ho & Hp & Hw)
    end.
    exists w'. eexists. split; [exact Hr |].
    split; [exact Hfold |]. split.
    { rewrite Ht. cbn [add_events after_step w_trace].
      rewrite <- !app_assoc. reflexivity. }
    rewrite !count_events_app, Hf, Hb, Ho, Hp, Hw.
    destruct (logs_at (log_interval args) (i, b)); cbn;
      repeat split; reflexivity.
Qed.

(** Outside a dry run and with a log interval of at least 1, one call of
    [train] goes through every batch of the loader, in the order the
    loader serves them, and returns in the world that the batches leave
    one after the other: each one fits the weights to the batch and
    records its forward pass, its backward pass and its optimizer step,
    and a batch whose index is a multiple of the log interval adds its
    progress record and its wandb record.  So there is one forward pass,
    one backward pass and one optimizer step for each batch, and one
    progress record and one wandb record for each logging batch. *)
Theorem train_full_pass (args : Namespace) (model : model_ref)
    (dev : device) (train_loader : DataLoader) (optimizer : optimizer_ref)
    (epoch : Z) (w w1 : world) (bs : list Batch) :
  dry_run args = false ->
  1 <= log_interval args ->
  batches_of train_loader w = (Returned bs, w1) ->
  exists (w' : world) (es : list event),
    train args model dev train_loader optimizer epoch w = (Returned tt, w') /\
    w' = fold_left (after_batch args dev train_loader epoch) (enumerate bs) w1 /\
    w_trace w' = w_trace w ++ es /\
    count_events is_forward es = length bs /\
    count_events is_backward es = length bs /\
    count_events is_optimizer_step es = length bs /\
    count_events is_print_train es =
      length (List.filter (logs_at (log_interval args)) (enumerate bs)) /\
    count_events is_wandb_log es =
      length (List.filter (logs_at (log_interval args)) (enumerate bs)).
Proof.
  intros Hdry Hli Hb.
  pose proof (batches_of_inv _ _ _ _ Hb) as (_ & Hw & Hne & _).
  unfold train. rewrite (bind_returned _ _ _ _ _ Hb).
  destruct bs as [| b rest].
  - exists w1, []. split; [reflexivity |]. split; [reflexivity |]. split.
    { rewrite Hw. cbn [with_rng w_trace]. now rewrite app_nil_r. }
    cbn. repeat split; reflexivity.
  - assert (Hlen : loader_len train_loader <> 0).
    { pose proof (loader_len_pos train_loader (Hne ltac:(discriminate))). lia. }
    destruct (train_loop_accounting args dev train_loader epoch (b :: rest) 0 w1
                Hdry ltac:(lia) Hlen) as (w' & es & Hr & Hfold & Ht & Hrest).
    exists w', es. split; [exact Hr |]. split; [exact Hfold |].
    split; [| exact Hrest].
    rewrite Ht, Hw. reflexivity.
Qed.

End FullPass.

(* ===================================================================== *)
(** ** How a trial ends *)
(* ===================================================================== *)

Section Outcomes.

Context `{L : Libs}.



Lemma epoch_body_after_train (args : Namespace) (model : model_ref)
    (dev : device) (train_loader test_loader : DataLoader)
    (optimizer : optimizer_ref) (epoch : Z) (test_loss : option pyval)
    (w : world) :
  epoch_body args model dev train_loader test_loader optimizer epoch
    test_loss w =
  match train args model dev train_loader optimizer epoch w with
  | (Returned _, w1) =>
      (Raised (TypeError "test(): wrong number of positional arguments"), w1)
  | (Raised e, w1) => (Raised e, w1)
  end.
Proof.
  unfold epoch_body. rewrite call_train, call_test_with_epoch.
  rewrite !bind_unfold.
  destruct (train args model dev train_loader optimizer epoch w)
    as [[[] | e] w1]; reflexivity.
Qed.

Lemma run_parse_args_eq (w : world) :
  run_parse_args w =
  match parse_args (w_argv w) with
  | Parsed a => (Returned a, w)
  | HelpRequested => (Raised (SystemExit 0), add_events [HelpText] w)
  | UsageError msg => (Raised (SystemExit 2), add_events [Stderr msg] w)
  end.
Proof.
  unfold run_parse_args, bind, get.
  destruct (parse_args (w_argv w)); reflexivity.
Qed.



(** Every run of [main] ends as its first trial does: in the exception
    that the first call of [objective] raises, and in the world that call
    leaves; no later trial starts. *)
Theorem main_ends_as_first_trial (w : world) :
  exists e : exn,
    (objective (a_trial 0) (first_trial_world w)).1 = Raised e /\
    (main w).1 = Raised e /\
    (main w).2 = (objective (a_trial 0) (first_trial_world w)).2.
Proof.
  destruct (aborts_raises _ (first_trial_world w)
              (objective_aborts (a_trial 0))) as (e & w' & H & _).
  exists e. rewrite (main_until_first_objective w _ w' H), H.
  repeat split; reflexivity.
Qed.

End Outcomes.

(* ===================================================================== *)
(** ** The study *)
(* ===================================================================== *)

Section StudyFacts.

Context `{L : Libs}.

Lemma best_of_first_minimum (ts : list frozen_trial) (t : frozen_trial) :
  exists pre post,
    t :: ts = pre ++ best_of t ts :: post /\
    Forall (fun u => trial_value (best_of t ts) < trial_value u)%Q pre /\
    Forall (fun u => trial_value (best_of t ts) <= trial_value u)%Q post.
Proof.
  revert t. induction ts as [| u ts IH]; intros t.
  - exists [], []. repeat split; constructor.
  - cbn [best_of]. destruct (Qle_bool (trial_value t) (trial_value u)) eqn:E.
    + apply Qle_bool_iff in E.
      destruct (IH t) as (pre & post & Heq & Hpre & Hpost).
      destruct pre as [| p pre].
      * cbn [app] in Heq. injection Heq as Ht Hts.
        subst post. rewrite <- Ht in Hpost. rewrite <- Ht.
        exists [], (u :: ts). split.
        { reflexivity. }
        split.
        { apply Forall_nil_2. }
        apply Forall_cons_2; [exact E | exact Hpost].
      * cbn [app] in Heq. injection Heq as Ht Hts. subst p.
        exists (t :: u :: pre), post.
        split; [cbn [app]; do 2 f_equal; exact Hts |].
        split; [| exact Hpost].
        inversion Hpre as [| ? ? Hlt Hrest]; subst.
        constructor; [exact Hlt |]. constructor; [| exact Hrest].
        eapply Qlt_le_trans; eauto.
    + assert (Hlt : (trial_value u < trial_value t)%Q).
      { apply Qnot_le_lt. intros Hle. apply Qle_bool_iff in Hle. congruence. }
      destruct (IH u) as (pre & post & Heq & Hpre & Hpost).
      exists (t :: pre), post. split; [cbn [app]; f_equal; exact Heq |].
      split; [| exact Hpost]. constructor; [| exact Hpre].
      eapply Qle_lt_trans; [| exact Hlt].
      destruct pre as [| p pre].
      * cbn [app] in Heq. injection Heq as Hu _. rewrite <- Hu. apply Qle_refl.
      * cbn [app] in Heq. injection Heq as Hu _. subst p.
        inversion Hpre; subst. now apply Qlt_le_weak.
Qed.

(** [study.best_params] on a study without a finished trial raises
    [ValueError]; otherwise it gives the parameters of a trial of least
    value, the first one when several trials share the least value. *)
Theorem best_params_first_minimum (w : world) :
  (w_trials w = [] ->
   best_params w = (Raised (ValueError "No trials are completed yet."), w)) /\
  (w_trials w <> [] ->
   exists pre best post,
     w_trials w = pre ++ best :: post /\
     best_params w = (Returned (trial_params best), w) /\
     Forall (fun u => trial_value best < trial_value u)%Q pre /\
     Forall (fun u => trial_value best <= trial_value u)%Q post).
Proof.
  unfold best_params, bind, get. split.
  - intros ->. reflexivity.
  - intros Hne. destruct (w_trials w) as [| t ts]; [contradiction |].
    destruct (best_of_first_minimum ts t) as (pre & post & Heq & Hpre & Hpost).
    exists pre, (best_of t ts), post. repeat split; assumption.
Qed.




End StudyFacts.

(* ===================================================================== *)
(** ** What a trial depends on *)
(* ===================================================================== *)

Section SameRun.

Context `{L : Libs}.

Lemma same_run_ret {A} (P : world -> world -> Prop) (a : A) :
  same_run P P (ret a) (ret a).
Proof.
  intros w1 w2 HP. split; [reflexivity |]. split; [| intros; exact HP].
  exists []. cbn. now rewrite !app_nil_r.
Qed.

Lemma same_run_raise {A} (P Q : world -> world -> Prop) (e : exn) :
  same_run P Q (@raise world A e) (raise e).
Proof.
  intros w1 w2 HP. split; [reflexivity |]. split; [| discriminate].
  exists []. cbn. now rewrite !app_nil_r.
Qed.

Lemma same_at_bind {A B} (Q R : world -> world -> Prop)
    (c1 c2 : M world A) (k1 k2 : A -> M world B) (w1 w2 : world) :
  same_at Q c1 c2 w1 w2 ->
  (forall a, same_run Q R (k1 a) (k2 a)) ->
  same_at R (bind c1 k1) (bind c2 k2) w1 w2.
Proof.
  intros (Ho & (es & E1 & E2) & HQ) Hk. unfold same_at, bind.
  destruct (c1 w1) as [[a | e] u1], (c2 w2) as [[a2 | e2] u2];
    cbn [fst snd] in *; try discriminate.
  - injection Ho as <-.
    destruct (Hk a u1 u2 (HQ a eq_refl)) as (Ho' & (es' & E1' & E2') & HR).
    split; [exact Ho' |]. split; [| exact HR].
    exists (es ++ es'). rewrite E1', E2', E1, E2. now rewrite !app_assoc.
  - injection Ho as ->. split; [reflexivity |].
    split; [eauto | discriminate].
Qed.

Lemma same_run_bind {A B} (P Q R : world -> world -> Prop)
    (c1 c2 : M world A) (k1 k2 : A -> M world B) :
  same_run P Q c1 c2 -> (forall a, same_run Q R (k1 a) (k2 a)) ->
  same_run P R (bind c1 k1) (bind c2 k2).
Proof. intros Hc Hk w1 w2 HP. eapply same_at_bind; eauto. Qed.

Lemma same_run_weaken {A} (P Q Q' : world -> world -> Prop)
    (c1 c2 : M world A) :
  same_run P Q c1 c2 -> (forall u1 u2, Q u1 u2 -> Q' u1 u2) ->
  same_run P Q' c1 c2.
Proof.
  intros Hc HQ w1 w2 HP. destruct (Hc w1 w2 HP) as (Ho & He & Hq).
  split; [exact Ho |]. split; [exact He | intros a Ha; apply HQ; eauto].
Qed.

Lemma same_run_for_each {A} (P : world -> world -> Prop) (xs : list A)
    (body : A -> M world bool) :
  (forall x, same_run P P (body x) (body x)) ->
  same_run P P (for_each xs body) (for_each xs body).
Proof.
  intros Hb. induction xs as [| x xs IH]; cbn [for_each].
  - apply same_run_ret.
  - eapply same_run_bind; [apply Hb |]. intros [|]; [exact IH |].
    apply same_run_ret.
Qed.

Lemma same_run_for_fold {A S} (P : world -> world -> Prop) (xs : list A)
    (body : A -> S -> M world S) (s : S) :
  (forall x s, same_run P P (body x s) (body x s)) ->
  same_run P P (for_fold xs body s) (for_fold xs body s).
Proof.
  intros Hb. revert s. induction xs as [| x xs IH]; intros s; cbn [for_fold].
  - apply same_run_ret.
  - eapply same_run_bind; [apply Hb |]. intros s'. apply IH.
Qed.

Lemma same_run_emit (rng wts lr : bool) (e : event) :
  same_run (agree rng wts lr) (agree rng wts lr) (emit e) (emit e).
Proof.
  intros w1 w2 HP. split; [reflexivity |]. split; [| intros; exact HP].
  exists [e]. split; reflexivity.
Qed.

Lemma same_run_pure {A} (P : world -> world -> Prop) (c : forall W, M W A) :
  (forall w : world, exists o, forall w' : world, c world w' = (o, w')) ->
  same_run P P (c world) (c world).
Proof.
  intros Hc w1 w2 HP. destruct (Hc w1) as (o & Ho).
  unfold same_at. rewrite (Ho w1), (Ho w2). cbn [fst snd].
  split; [reflexivity |]. split; [| intros; exact HP].
  exists []. now rewrite !app_nil_r.
Qed.

Lemma same_run_py_mod (P : world -> world -> Prop) (a b : Z) :
  same_run P P (py_mod a b) (py_mod a b).
Proof.
  apply (same_run_pure P (fun W => @py_mod W a b)). intros w.
  unfold py_mod. destruct (b =? 0); eexists; intros; reflexivity.
Qed.

Lemma same_run_py_truediv (P : world -> world -> Prop) (a : Q) (b : Z) :
  same_run P P (py_truediv a b) (py_truediv a b).
Proof.
  apply (same_run_pure P (fun W => @py_truediv W a b)). intros w.
  unfold py_truediv. destruct (b =? 0); eexists; intros; reflexivity.
Qed.

End SameRun.

Section SameTrial.

Context `{L : Libs}.

Lemma same_run_batches_of (wts lr : bool) (dl : DataLoader) :
  same_run (agree true wts lr) (agree true wts lr)
    (batches_of dl) (batches_of dl).
Proof.
  intros w1 w2 HP. pose proof HP as (Ha & Hs & Hr & Hw & Hl).
  specialize (Hr eq_refl).
  unfold same_at, batches_of, serving_order.
  unfold bind, get, set_rng, modify, ret. rewrite <- Hr.
  destruct (dl_shuffle dl).
  - destruct (shuffle (draw_base_seed (w_rng w1)) (dl_dataset dl)) as [xs g].
    cbn. split; [reflexivity |]. split.
    + exists []. now rewrite !app_nil_r.
    + intros _ _. repeat split; assumption.
  - cbn. split; [reflexivity |]. split.
    + exists []. now rewrite !app_nil_r.
    + intros _ _. repeat split; assumption.
Qed.

Lemma agree_after_step (dev : device) (epoch idx : Z) (b : Batch)
    (w1 w2 : world) :
  agree true true true w1 w2 ->
  fit_of dev b w1 = fit_of dev b w2 /\
  agree true true true (after_step dev epoch idx b w1)
    (after_step dev epoch idx b w2).
Proof.
  intros (Ha & Hs & Hr & Hw & Hl).
  assert (Hf : fit_of dev b w1 = fit_of dev b w2).
  { unfold fit_of. now rewrite (Hr eq_refl), (Hw eq_refl), (Hl eq_refl). }
  split; [exact Hf |]. unfold agree, after_step. cbn. rewrite Hf.
  repeat split; auto.
Qed.

Lemma same_run_train_batch (args : Namespace) (dev : device)
    (dl : DataLoader) (epoch : Z) (item : Z * Batch) :
  same_run (agree true true true) (agree true true true)
    (train_batch args dev dl epoch item) (train_batch args dev dl epoch item).
Proof.
  destruct item as [idx b]. intros w1 w2 HP.
  destruct (agree_after_step dev epoch idx b w1 w2 HP) as (Hf & Hs).
  unfold same_at. rewrite !train_batch_step, <- Hf.
  match goal with |- (bind ?c ?k _).1 = _ /\ _ =>
    assert (Hk : same_run (agree true true true) (agree true true true)
                   (bind c k) (bind c k))
  end.
  { eapply same_run_bind; [apply same_run_py_mod | intros r].
    destruct (r =? 0); [| apply same_run_ret].
    eapply same_run_bind; [apply same_run_py_truediv | intros percent].
    eapply same_run_bind; [apply same_run_emit | intros _].
    destruct (dry_run args); [apply same_run_ret |].
    eapply same_run_bind; [apply same_run_emit | intros _; apply same_run_ret]. }
  destruct (Hk _ _ Hs) as (Ho & (es & E1 & E2) & HQ).
  split; [exact Ho |]. split; [| exact HQ].
  exists ([Forward epoch idx; Backward epoch idx; OptimizerStep epoch idx] ++ es).
  rewrite E1, E2. cbn [after_step w_trace]. now rewrite <- !app_assoc.
Qed.

Lemma same_run_train (args : Namespace) (model : model_ref) (dev : device)
    (dl : DataLoader) (optimizer : optimizer_ref) (epoch : Z) :
  same_run (agree true true true) (agree true true true)
    (train args model dev dl optimizer epoch)
    (train args model dev dl optimizer epoch).
Proof.
  unfold train. eapply same_run_bind; [apply same_run_batches_of | intros bs].
  apply same_run_for_each. intros item. apply same_run_train_batch.
Qed.

Lemma same_run_epoch_body (args : Namespace) (model : model_ref)
    (dev : device) (train_loader test_loader : DataLoader)
    (optimizer : optimizer_ref) (epoch : Z) (test_loss : option pyval) :
  same_run (agree true true true) (agree true true true)
    (epoch_body args model dev train_loader test_loader optimizer epoch
       test_loss)
    (epoch_body args model dev train_loader test_loader optimizer epoch
       test_loss).
Proof.
  intros w1 w2 HP. unfold same_at. rewrite !epoch_body_after_train.
  destruct (same_run_train args model dev train_loader optimizer epoch
              w1 w2 HP) as (Ho & He & _).
  destruct (train args model dev train_loader optimizer epoch w1)
    as [[[] | e1] u1],
    (train args model dev train_loader optimizer epoch w2)
    as [[[] | e2] u2]; cbn [fst snd] in *; try discriminate.
  - split; [reflexivity |]. split; [exact He | discriminate].
  - injection Ho as ->. split; [reflexivity |].
    split; [exact He | discriminate].
Qed.

Lemma same_run_run_parse_args (rng wts lr : bool) :
  same_run (agree rng wts lr) (agree rng wts lr) run_parse_args run_parse_args.
Proof.
  intros w1 w2 HP. pose proof HP as (Ha & _).
  unfold same_at. rewrite !run_parse_args_eq, <- Ha.
  destruct (parse_args (w_argv w1)); cbn.
  - split; [reflexivity |]. split; [| intros; exact HP].
    exists []. now rewrite !app_nil_r.
  - split; [reflexivity |]. split; [eauto | discriminate].
  - split; [reflexivity |]. split; [eauto | discriminate].
Qed.

Lemma same_run_torch_manual_seed (wts lr : bool) (s : Z) :
  same_run (agree false wts lr) (agree true wts lr)
    (torch_manual_seed s) (torch_manual_seed s).
Proof.
  intros w1 w2 (Ha & Hs & _ & Hw & Hl). unfold same_at, torch_manual_seed.
  destruct (seed_in_range s).
  - split; [reflexivity |]. split.
    + exists [ManualSeed s]. split; reflexivity.
    + intros _ _. repeat split; assumption.
  - split; [reflexivity |]. split; [| discriminate].
    exists []. cbn. now rewrite !app_nil_r.
Qed.

Lemma same_run_suggest_float (rng wts lr : bool) (trial : trial_ref)
    (name : string) (lo hi : Q) :
  same_run (agree rng wts lr) (agree rng wts lr)
    (suggest_float trial name lo hi) (suggest_float trial name lo hi).
Proof.
  intros w1 w2 (Ha & Hs & Hr & Hw & Hl).
  unfold same_at, suggest_float, bind, get, set_sampler, set_params, emit,
    modify, ret.
  rewrite <- Hs. destruct (sample_float (w_sampler w1) lo hi) as [v s]. cbn.
  split; [reflexivity |]. split; [eauto |].
  intros _ _. repeat split; assumption.
Qed.

Lemma same_run_suggest_int (rng wts lr : bool) (trial : trial_ref)
    (name : string) (lo hi : Z) :
  same_run (agree rng wts lr) (agree rng wts lr)
    (suggest_int trial name lo hi) (suggest_int trial name lo hi).
Proof.
  intros w1 w2 (Ha & Hs & Hr & Hw & Hl).
  unfold same_at, suggest_int, bind, get, set_sampler, set_params, emit,
    modify, ret.
  rewrite <- Hs. destruct (sample_int (w_sampler w1) lo hi) as [v s]. cbn.
  split; [reflexivity |]. split; [eauto |].
  intros _ _. repeat split; assumption.
Qed.

Lemma same_run_make_loaders (P : world -> world -> Prop) (args : Namespace)
    (use_cuda : bool) :
  same_run P P (make_loaders args use_cuda) (make_loaders args use_cuda).
Proof.
  intros w1 w2 HP. unfold same_at. rewrite !make_loaders_eq.
  destruct (batch_size args <=? 0), (test_batch_size args <=? 0); cbn;
    (split; [reflexivity |]);
    (split; [exists []; now rewrite !app_nil_r |]);
    try discriminate; intros; exact HP.
Qed.

Lemma same_run_new_Net (wts lr : bool) (dev : device) :
  same_run (agree true wts lr) (agree true true false)
    (new_Net dev) (new_Net dev).
Proof.
  intros w1 w2 (Ha & Hs & Hr & Hw & Hl). specialize (Hr eq_refl).
  unfold same_at, new_Net, bind, get, set_rng, set_net, emit, modify, ret.
  rewrite <- Hr. destruct (Net (w_rng w1)) as [p g]. cbn.
  split; [reflexivity |]. split; [eauto |].
  intros _ _. repeat split; auto. discriminate.
Qed.

Lemma same_run_new_Adam (lr0 : bool) (model : model_ref) (lr : Q) :
  same_run (agree true true lr0) (agree true true true)
    (new_Adam model lr) (new_Adam model lr).
Proof.
  intros w1 w2 (Ha & Hs & Hr & Hw & Hl).
  unfold same_at, new_Adam, bind, get, set_net, modify, ret. cbn.
  split; [reflexivity |]. split; [exists []; now rewrite !app_nil_r |].
  intros _ _. repeat split; auto.
Qed.

(** Two calls of [objective] that find the same command line and the
    same state of the sampler end in the same exception and put out the
    same events, whatever the two worlds hold otherwise: the model and
    the generator an earlier trial left behind, its parameters, the trace
    so far and the finished trials are not read. *)
Theorem trial_reads_only_command_line_and_sampler (trial : trial_ref)
    (w1 w2 : world) :
  w_argv w1 = w_argv w2 ->
  w_sampler w1 = w_sampler w2 ->
  (objective trial w1).1 = (objective trial w2).1 /\
  exists es,
    w_trace (objective trial w1).2 = w_trace w1 ++ es /\
    w_trace (objective trial w2).2 = w_trace w2 ++ es.
Proof.
  intros Ha Hs.
  assert (H : same_run (agree false false false) (agree true true true)
                (objective trial) (objective trial)).
  { unfold objective.
    eapply same_run_bind; [apply same_run_run_parse_args | intros args].
    eapply same_run_bind; [apply same_run_torch_manual_seed | intros _].
    eapply same_run_bind; [apply same_run_suggest_float | intros lr].
    eapply same_run_bind; [apply same_run_suggest_int | intros epochs].
    eapply same_run_bind; [apply same_run_emit | intros _].
    eapply same_run_bind; [apply same_run_make_loaders | intros [tl sl]].
    eapply same_run_bind; [apply same_run_new_Net | intros model].
    eapply same_run_bind; [apply same_run_new_Adam | intros optimizer].
    eapply same_run_bind.
    { apply same_run_for_fold. intros epoch s. apply same_run_epoch_body. }
    intros test_loss.
    eapply same_run_bind.
    { destruct (save_model args); [apply same_run_emit | apply same_run_ret]. }
    intros _. destruct test_loss; [apply same_run_ret | apply same_run_raise]. }
  destruct (H w1 w2) as (Ho & He & _).
  - repeat split; auto; discriminate.
  - split; [exact Ho | exact He].
Qed.

End SameTrial.

Section SameEvaluation.

Context `{L : Libs}.

Lemma same_model_batches_of (dl : DataLoader) :
  same_run (same_model (dl_shuffle dl)) (same_model (dl_shuffle dl))
    (batches_of dl) (batches_of dl).
Proof.
  intros w1 w2 HP. pose proof HP as (Hw & Hr).
  unfold same_at, batches_of, serving_order.
  destruct (dl_shuffle dl).
  - specialize (Hr eq_refl). unfold bind, get, set_rng, modify, ret.
    rewrite <- Hr.
    destruct (shuffle (draw_base_seed (w_rng w1)) (dl_dataset dl)) as [xs g].
    cbn. split; [reflexivity |]. split.
    + exists []. now rewrite !app_nil_r.
    + intros _ _. split; auto.
  - unfold bind, get, set_rng, modify, ret. cbn. split; [reflexivity |]. split.
    + exists []. now rewrite !app_nil_r.
    + intros _ _. split; [exact Hw | discriminate].
Qed.

Lemma same_model_test_batch (rng : bool) (b : Batch) (acc : Q * Z) :
  same_run (same_model rng) (same_model rng) (test_batch b acc) (test_batch b acc).
Proof.
  intros w1 w2 HP. pose proof HP as (Hw & Hr). destruct acc as [l c].
  unfold same_at, test_batch, bind, get, emit, modify, ret. cbn.
  rewrite <- Hw. split; [reflexivity |]. split; [eauto |].
  intros _ _. exact HP.
Qed.

Lemma same_model_emit (rng : bool) (e : event) :
  same_run (same_model rng) (same_model rng) (emit e) (emit e).
Proof.
  intros w1 w2 HP. split; [reflexivity |]. split; [| intros; exact HP].
  exists [e]. split; reflexivity.
Qed.

(** What [test] returns or raises, and what it prints and sends to
    wandb, depends on the weights alone, and on the generator when the
    loader shuffles: two worlds with the same model give the same mean
    loss and the same records. *)
Theorem test_reads_only_the_model (model : model_ref) (dev : device)
    (test_loader : DataLoader) (w1 w2 : world) :
  weights (w_net w1) = weights (w_net w2) ->
  (dl_shuffle test_loader = true -> w_rng w1 = w_rng w2) ->
  (test model dev test_loader w1).1 = (test model dev test_loader w2).1 /\
  exists es,
    w_trace (test model dev test_loader w1).2 = w_trace w1 ++ es /\
    w_trace (test model dev test_loader w2).2 = w_trace w2 ++ es.
Proof.
  intros Hw Hr.
  assert (H : same_run (same_model (dl_shuffle test_loader))
                (same_model (dl_shuffle test_loader))
                (test model dev test_loader) (test model dev test_loader)).
  { unfold test.
    eapply same_run_bind; [apply same_model_batches_of | intros bs].
    eapply same_run_bind.
    { apply same_run_for_fold. intros b acc. apply same_model_test_batch. }
    intros [l c].
    eapply same_run_bind; [apply same_run_py_truediv | intros mean].
    eapply same_run_bind; [apply same_run_py_truediv | intros acc].
    eapply same_run_bind; [apply same_model_emit | intros _].
    eapply same_run_bind; [apply same_run_py_truediv | intros pct].
    eapply same_run_bind; [apply same_model_emit | intros _].
    apply same_run_ret. }
  destruct (H w1 w2) as (Ho & He & _).
  - split; assumption.
  - split; [exact Ho | exact He].
Qed.

End SameEvaluation.

(* ===================================================================== *)
(** ** The script in the small world *)
(* ===================================================================== *)

#[local] Existing Instance Toy.libs.

(** The toy loss is not negative on the rows of the toy model. *)
Lemma toy_nll_nonneg (p : Z) (data : list Z) :
  Forall (fun row => forall t, 0 <= Toy.toy_nll row t)%Q (map Toy.toy_row data).
Proof.
  induction data as [| x data IH]; constructor; [| exact IH].
  intros t. unfold Toy.toy_nll, Toy.toy_row.
  destruct (Z.even x), (Z.to_nat t) as [| [| [| k]]]; vm_compute; discriminate.
Qed.

(** C5. With the default seed, on the CPU and with the same sampled
    parameters, a trial ends in the [TypeError] of the call of [test]
    whatever state it finds the generator in: neither of two such runs
    has a final evaluation loss. *)
Theorem seeded_trials_end_in_TypeError :
  (objective (a_trial 0) (Toy.world0 [])).1 =
    Raised (TypeError "test(): wrong number of positional arguments") /\
  (objective (a_trial 0) (with_rng 77 (Toy.world0 []))).1 =
    Raised (TypeError "test(): wrong number of positional arguments").
Proof. split; vm_compute; reflexivity. Qed.

(** C8, as the claim has it, fails without CUDA: the loaders built for
    the CPU do not shuffle, and the training loader serves the dataset in
    its own order. *)
Lemma cpu_train_loader_is_not_shuffled :
  ~ (forall (args : Namespace) (use_cuda : bool) (w w' : world)
            (train_loader test_loader : DataLoader),
       make_loaders args use_cuda w = (Returned (train_loader, test_loader), w') ->
       dl_shuffle train_loader = true).
Proof.
  intros H.
  pose proof (H default_args (negb (no_cuda default_args) && cuda_is_available)
                (Toy.world0 []) (Toy.world0 []) _ _ eq_refl) as Hs.
  discriminate Hs.
Qed.

Example cpu_train_batches_in_dataset_order :
  batches_of Toy.train_loader (Toy.world0 []) =
  (Returned [[(0, 0); (1, 1)]; [(2, 0)]], Toy.served []).
Proof. reflexivity. Qed.

Example log_interval_zero_from_the_command_line :
  (objective (a_trial 0) (Toy.world0 ["--log-interval"; "0"])).1 =
  Raised (ZeroDivisionError "integer modulo by zero").
Proof. vm_compute. reflexivity. Qed.

Lemma usage_error_witness :
  exists w',
    main (Toy.world0 ["--bogus"]) = (Raised (SystemExit 2), w') /\
    w_trace w' = w_trace (Toy.world0 ["--bogus"]) ++
                 [Stderr "unrecognized arguments"] /\
    w_sampler w' = new_sampler /\ w_params w' = ∅ /\ w_trials w' = [] /\
    w_rng w' = w_rng (Toy.world0 ["--bogus"]) /\
    w_net w' = w_net (Toy.world0 ["--bogus"]).
Proof.
  apply (usage_error_exits_before_trial_work (Toy.world0 ["--bogus"])
           "unrecognized arguments").
  reflexivity.
Defined.


Lemma test_bounds_witness :
  exists (mean_loss accuracy : Q) (correct : Z) (w' : world) (es : list event),
    test the_model cpu Toy.test_loader (Toy.world0 []) = (Returned mean_loss, w') /\
    w_trace w' =
      w_trace (Toy.world0 []) ++ es ++
      [WandbLog {[ "test acc" := SFloat accuracy;
                   "test loss" := SFloat mean_loss ]};
       PrintTest mean_loss correct (len (dl_dataset Toy.test_loader)) accuracy] /\
    (0 <= accuracy <= 100)%Q /\ (0 <= mean_loss)%Q.
Proof.
  apply (test_accuracy_and_loss_bounds the_model cpu Toy.test_loader
           (Toy.world0 [])).
  - exact toy_nll_nonneg.
  - discriminate.
Defined.

Lemma test_division_witness :
  (exists w', test the_model cpu Toy.empty_loader (Toy.world0 []) =
              (Raised (ZeroDivisionError "division by zero"), w')) /\
  (exists mean_loss w',
     test the_model cpu Toy.test_loader (Toy.world0 []) = (Returned mean_loss, w')).
Proof.
  split.
  - apply (proj1 (test_division_by_example_count the_model cpu Toy.empty_loader
                    (Toy.world0 []))).
    reflexivity.
  - apply (proj2 (test_division_by_example_count the_model cpu Toy.test_loader
                    (Toy.world0 []))).
    reflexivity.
Defined.

Lemma dry_run_witness :
  exists (w' : world) (es : list event),
    train Toy.dry_args the_model cpu Toy.train_loader the_optimizer 0
      (Toy.world0 ["--dry-run"]) = (Returned tt, w') /\
    w' = add_events [progress cpu Toy.train_loader 0 0 [(0, 0); (1, 1)]
                       (Toy.served ["--dry-run"])]
           (after_step cpu 0 0 [(0, 0); (1, 1)] (Toy.served ["--dry-run"])) /\
    w_trace w' = w_trace (Toy.world0 ["--dry-run"]) ++ es /\
    es = [Forward 0 0; Backward 0 0; OptimizerStep 0 0;
          progress cpu Toy.train_loader 0 0 [(0, 0); (1, 1)]
            (Toy.served ["--dry-run"])] /\
    count_events is_forward es = 1%nat /\
    count_events is_backward es = 1%nat /\
    count_events is_optimizer_step es = 1%nat /\
    (count_events is_wandb_log es <= 1)%nat.
Proof.
  apply (dry_run_processes_one_batch Toy.dry_args the_model cpu Toy.train_loader
           the_optimizer 0 (Toy.world0 ["--dry-run"]) (Toy.served ["--dry-run"])
           [[(0, 0); (1, 1)]; [(2, 0)]]).
  - reflexivity.
  - vm_compute. discriminate.
  - reflexivity.
Defined.

Lemma log_interval_witness :
  train Toy.zero_args the_model cpu Toy.train_loader the_optimizer 0
    (Toy.world0 []) =
  (Raised (ZeroDivisionError "integer modulo by zero"),
   after_step cpu 0 0 [(0, 0); (1, 1)] (Toy.served [])) /\
  ((forall (idx : Z) (w0 : world),
      py_mod idx (log_interval default_args) w0 =
      (Returned (idx mod log_interval default_args), w0)) /\
   exists (w' : world) (es : list event),
     train default_args the_model cpu Toy.train_loader the_optimizer 0
       (Toy.world0 []) = (Returned tt, w') /\
     w_trace w' =
       w_trace (Toy.world0 []) ++
       [Forward 0 0; Backward 0 0; OptimizerStep 0 0;
        progress cpu Toy.train_loader 0 0 [(0, 0); (1, 1)] (Toy.served [])]
       ++ es).
Proof.
  split.
  - apply (proj1 (log_interval_modulo_unguarded Toy.zero_args the_model cpu
                    Toy.train_loader the_optimizer 0 (Toy.world0 [])
                    (Toy.served []) [(0, 0); (1, 1)] [[(2, 0)]] eq_refl)).
    reflexivity.
  - apply (proj2 (log_interval_modulo_unguarded default_args the_model cpu
                    Toy.train_loader the_optimizer 0 (Toy.world0 [])
                    (Toy.served []) [(0, 0); (1, 1)] [[(2, 0)]] eq_refl)).
    vm_compute. discriminate.
Defined.

Lemma loaders_shuffle_witness :
  dl_shuffle Toy.train_loader = false /\
  dl_shuffle Toy.test_loader = false /\
  forall w0 : world,
    batches_of Toy.train_loader w0 =
    (Returned (batched (Pos.to_nat (dl_batch_size Toy.train_loader)) mnist_train),
     with_rng (draw_base_seed (w_rng w0)) w0).
Proof.
  apply (loaders_shuffle_only_with_cuda
           {| batch_size := 2; test_batch_size := 2; gamma := 7 # 10;
              no_cuda := false; dry_run := false; seed := 1;
              log_interval := 10; save_model := false |}
           false (Toy.world0 []) (Toy.world0 [])
           Toy.train_loader Toy.test_loader).
  reflexivity.
Defined.

Lemma argmax_witness :
  exists m,
    [- (2 # 1); - (1 # 8); - (1 # 8)]%Q !!
      Z.to_nat (argmax [- (2 # 1); - (1 # 8); - (1 # 8)]%Q) = Some m /\
    0 <= argmax [- (2 # 1); - (1 # 8); - (1 # 8)]%Q
      < len [- (2 # 1); - (1 # 8); - (1 # 8)]%Q /\
    (forall k x, [- (2 # 1); - (1 # 8); - (1 # 8)]%Q !! k = Some x -> (x <= m)%Q) /\
    (forall k x,
       (k < Z.to_nat (argmax [- (2 # 1); - (1 # 8); - (1 # 8)]%Q))%nat ->
       [- (2 # 1); - (1 # 8); - (1 # 8)]%Q !! k = Some x -> (x < m)%Q).
Proof.
  apply (argmax_first_maximum [- (2 # 1); - (1 # 8); - (1 # 8)]%Q).
  discriminate.
Defined.

Example argmax_takes_the_first_of_equal_maxima :
  argmax [- (2 # 1); - (1 # 8); - (1 # 8)]%Q = 1.
Proof. reflexivity. Qed.

Lemma objective_reseeds_witness :
  objective (a_trial 0) Toy.reseeded_world = objective (a_trial 0) (Toy.world0 []).
Proof.
  apply (objective_reseeds (a_trial 0) (w_rng Toy.reseeded_world)
           (Toy.world0 []) default_args).
  - reflexivity.
  - reflexivity.
Defined.

Lemma sampled_parameters_witness :
  exists (lr : Q) (epochs : Z) (e : exn) (w' : world) (es : list event),
    objective (a_trial 0) (Toy.world0 []) = (Raised e, w') /\
    w_trace w' =
      w_trace (Toy.world0 []) ++
      [ManualSeed (seed default_args); Suggested "lr" (SFloat lr);
       Suggested "epochs" (SInt epochs);
       WandbInit "plr-task_3"
         {[ "learning_rate" := SFloat lr; "architecture" := SStr "CNN";
            "dataset" := SStr "MNIST"; "epochs" := SInt epochs ]}] ++ es /\
    w_params w' = <[ "epochs" := SInt epochs ]>
                    (<[ "lr" := SFloat lr ]> (w_params (Toy.world0 []))) /\
    (0 < lr <= 1 # 1000)%Q /\ 1 <= epochs <= 10.
Proof.
  apply (sampled_parameters_in_range (a_trial 0) (Toy.world0 []) default_args).
  - reflexivity.
  - reflexivity.
Defined.

Lemma objective_log_interval_zero_witness :
  exists w',
    objective (a_trial 0) (Toy.world0 ["--log-interval"; "0"]) =
    (Raised (ZeroDivisionError "integer modulo by zero"), w') /\
    w_trace w' =
      w_trace (Toy.world0 ["--log-interval"; "0"]) ++
      prologue_events Toy.zero_args (Toy.world0 ["--log-interval"; "0"]) ++
      [NetCreated cpu; Forward 0 0; Backward 0 0; OptimizerStep 0 0].
Proof.
  apply (objective_log_interval_zero (a_trial 0)
           (Toy.world0 ["--log-interval"; "0"]) Toy.zero_args).
  - reflexivity.
  - reflexivity.
  - reflexivity.
  - reflexivity.
  - reflexivity.
  - discriminate.
Defined.

Lemma batches_cover_witness :
  Permutation (concat [[(4, 0); (5, 0)]; [(7, 1)]]) (dl_dataset Toy.test_loader) /\
  fold_left Z.add (map len ([[(4, 0); (5, 0)]; [(7, 1)]] : list Batch)) 0 =
  len (dl_dataset Toy.test_loader).
Proof.
  apply (batches_cover_dataset_once Toy.test_loader (Toy.world0 [])
           (Toy.served []) [[(4, 0); (5, 0)]; [(7, 1)]]).
  reflexivity.
Defined.

Lemma train_full_pass_witness :
  exists (w' : world) (es : list event),
    train default_args the_model cpu Toy.train_loader the_optimizer 0
      (Toy.world0 []) = (Returned tt, w') /\
    w' = fold_left (after_batch default_args cpu Toy.train_loader 0)
           (enumerate ([[(0, 0); (1, 1)]; [(2, 0)]] : list Batch))
           (Toy.served []) /\
    w_trace w' = w_trace (Toy.world0 []) ++ es /\
    count_events is_forward es = 2%nat /\
    count_events is_backward es = 2%nat /\
    count_events is_optimizer_step es = 2%nat /\
    count_events is_print_train es =
      length (List.filter (logs_at (log_interval default_args))
                (enumerate ([[(0, 0); (1, 1)]; [(2, 0)]] : list Batch))) /\
    count_events is_wandb_log es =
      length (List.filter (logs_at (log_interval default_args))
                (enumerate ([[(0, 0); (1, 1)]; [(2, 0)]] : list Batch))).
Proof.
  apply (train_full_pass default_args the_model cpu Toy.train_loader
           the_optimizer 0 (Toy.world0 []) (Toy.served [])
           [[(0, 0); (1, 1)]; [(2, 0)]]).
  - reflexivity.
  - vm_compute. discriminate.
  - reflexivity.
Defined.

Lemma loader_len_witness :
  len ([[(4, 0); (5, 0)]; [(7, 1)]] : list Batch) = loader_len Toy.test_loader /\
  Forall (fun b => 1 <= len b <= Z.pos (dl_batch_size Toy.test_loader))
    ([[(4, 0); (5, 0)]; [(7, 1)]] : list Batch) /\
  forall (idx : Z) (b : Batch),
    In (idx, b) (enumerate ([[(4, 0); (5, 0)]; [(7, 1)]] : list Batch)) ->
    (0 <= 100 * inject_Z idx / inject_Z (loader_len Toy.test_loader) < 100)%Q.
Proof.
  apply (loader_serves_len_batches Toy.test_loader (Toy.world0 [])
           (Toy.served []) [[(4, 0); (5, 0)]; [(7, 1)]]).
  reflexivity.
Defined.

Lemma best_params_witness :
  best_params (Toy.world0 []) =
    (Raised (ValueError "No trials are completed yet."), Toy.world0 []) /\
  exists pre best post,
    w_trials (Toy.studied_world) = pre ++ best :: post /\
    best_params Toy.studied_world = (Returned (trial_params best), Toy.studied_world) /\
    Forall (fun u => trial_value best < trial_value u)%Q pre /\
    Forall (fun u => trial_value best <= trial_value u)%Q post.
Proof.
  split.
  - apply (proj1 (best_params_first_minimum (Toy.world0 []))). reflexivity.
  - apply (proj2 (best_params_first_minimum Toy.studied_world)). discriminate.
Defined.

Example best_params_takes_the_first_of_equal_values :
  best_params Toy.studied_world =
  (Returned {[ "epochs" := SInt 2 ]}, Toy.studied_world).
Proof. vm_compute. reflexivity. Qed.


Lemma trial_reads_witness :
  (objective (a_trial 0) (Toy.world0 [])).1 =
  (objective (a_trial 0) Toy.studied_world).1 /\
  exists es,
    w_trace (objective (a_trial 0) (Toy.world0 [])).2 =
      w_trace (Toy.world0 []) ++ es /\
    w_trace (objective (a_trial 0) Toy.studied_world).2 =
      w_trace Toy.studied_world ++ es.
Proof.
  apply (trial_reads_only_command_line_and_sampler (a_trial 0)
           (Toy.world0 []) Toy.studied_world).
  - reflexivity.
  - reflexivity.
Defined.

Lemma test_reads_witness :
  (test the_model cpu Toy.test_loader (Toy.world0 [])).1 =
  (test the_model cpu Toy.test_loader Toy.studied_world).1 /\
  exists es,
    w_trace (test the_model cpu Toy.test_loader (Toy.world0 [])).2 =
      w_trace (Toy.world0 []) ++ es /\
    w_trace (test the_model cpu Toy.test_loader Toy.studied_world).2 =
      w_trace Toy.studied_world ++ es.
Proof.
  apply (test_reads_only_the_model the_model cpu Toy.test_loader
           (Toy.world0 []) Toy.studied_world).
  - reflexivity.
  - discriminate.
Defined.

